(** * Span attributes to playground instance

    A shallow embedding of [app/src/pages/playground/playgroundUtils.ts]:
    the role normalizer, the provider inferencer, the three attribute
    extractors and the instance transformer, followed by the properties
    the specification states about them. *)

From Stdlib Require Import String Ascii List.
From stdpp Require Import base option list strings.

Local Open Scope string_scope.
Local Open Scope list_scope.

(** ** JavaScript strings *)

(** [String.prototype.includes(searchString)]: does [searchString] occur
    somewhere in [s]?  The scan tries every start position, left to right. *)
Fixpoint includes (s searchString : string) : bool :=
  if String.prefix searchString s then true
  else match s with
       | EmptyString => false
       | String _ s' => includes s' searchString
       end.

(** [searchString] occurs in [s]: some text before it and some text after
    it make up [s]. *)
Definition occursIn (searchString s : string) : Prop :=
  ∃ before after, s = before +:+ searchString +:+ after.

(** [Array.prototype.includes] on an array of strings. *)
Definition Array_includes (values : list string) (x : string) : bool :=
  bool_decide (x ∈ values).

(** ** Parsed JSON values

    What [JSON.parse] produces.  An object is the ordered list of its own
    properties, each key occurring once; a number keeps its lexeme, no
    schema of this module looks inside one. *)
Unset Elimination Schemes.
Inductive JSON : Type :=
| JNull
| JBool (b : bool)
| JNumber (lexeme : string)
| JString (s : string)
| JArray (items : list JSON)
| JObject (props : list (string * JSON)).
Set Elimination Schemes.

(** Property read [o[key]] on the property list of an object. *)
Fixpoint getProp (key : string) (props : list (string * JSON)) : option JSON :=
  match props with
  | [] => None
  | (k, v) :: rest => if String.eqb k key then Some v else getProp key rest
  end.

(** ** Schemas *)

(** A message as the schemas deliver it: [{ message: { role, content } }]. *)
Module MessageSchema.
Record message_t := Message { role : string; content : string }.
Record t := Make { message : message_t }.
End MessageSchema.

(** The [safeParse] of each schema returns [Some data] on success and
    [None] on failure. *)
Module Zod.

(** Modelled from the spec: the schema-validation primitives behind
    [./schemas] are not among the sources.  [z.string()] accepts exactly
    the string values. *)
Definition string (v : JSON) : option String.string :=
  match v with
  | JString s => Some s
  | _ => None
  end.

(** Modelled from the spec: a required key of [z.object({ key: schema })];
    the value must be an object holding [key] with a value the inner
    schema accepts.  Other keys are ignored. *)
Definition field {A} (key : String.string) (schema : JSON → option A)
    (v : JSON) : option A :=
  match v with
  | JObject props =>
      match getProp key props with
      | Some x => schema x
      | None => None
      end
  | _ => None
  end.

(** Modelled from the spec: [z.array(schema)]; the value must be an array
    every element of which the inner schema accepts. *)
Definition array {A} (schema : JSON → option A) (v : JSON)
    : option (list A) :=
  match v with
  | JArray items => mapM schema items
  | _ => None
  end.

End Zod.

(** Modelled from the spec: [./schemas] is not among the sources.  An entry
    of a message array has the shape
    [{ message: { role: string, content: string } }]. *)
Definition messageSchema (v : JSON) : option MessageSchema.t :=
  Zod.field "message"
    (λ m, role ← Zod.field "role" Zod.string m;
          content ← Zod.field "content" Zod.string m;
          Some (MessageSchema.Message role content)) v
  ≫= λ m, Some (MessageSchema.Make m).

(** Modelled from the spec: [./schemas] is not among the sources.
    [{ llm: { input_messages: Array<message> } }]; the data is
    [data.llm.input_messages]. *)
Definition llmInputMessageSchema (v : JSON) : option (list MessageSchema.t) :=
  Zod.field "llm" (Zod.field "input_messages" (Zod.array messageSchema)) v.

(** Modelled from the spec: [./schemas] is not among the sources.
    [{ llm: { output_messages: Array<message> } }]; the data is
    [data.llm.output_messages]. *)
Definition llmOutputMessageSchema (v : JSON) : option (list MessageSchema.t) :=
  Zod.field "llm" (Zod.field "output_messages" (Zod.array messageSchema)) v.

(** Modelled from the spec: [./schemas] is not among the sources.
    [{ output: { value: string } }]; the data is [data.output.value]. *)
Definition outputSchema (v : JSON) : option string :=
  Zod.field "output" (Zod.field "value" Zod.string) v.

(** Modelled from the spec: [./schemas] is not among the sources.
    [{ llm: { model_name: string } }]; the data is [data.llm.model_name]. *)
Definition modelNameSchema (v : JSON) : option string :=
  Zod.field "llm" (Zod.field "model_name" Zod.string) v.

(** ** Role normalizer *)

Section RoleNormalizer.

(** The canonical role enumeration behind [chatMessageRolesSchema], the
    table [ChatRoleMap] as [Object.entries] lists it (canonical role,
    accepted values) and the default role: configuration of
    [./constants], [./schemas] and [generativeConstants], taken as given. *)
Variable chatMessageRoles : list string.
Variable ChatRoleMap : list (string * list string).
Variable DEFAULT_CHAT_ROLE : string.

(** Modelled from the spec: [chatMessageRolesSchema] accepts exactly the
    members of the canonical role enumeration. *)
Definition chatMessageRolesSchema (role : JSON) : option string :=
  match role with
  | JString s => if Array_includes chatMessageRoles s then Some s else None
  | _ => None
  end.

Definition isChatMessageRole (role : JSON) : bool :=
  bool_decide (is_Some (chatMessageRolesSchema role)).

(** The [for ... of Object.entries(ChatRoleMap)] loop of [getChatRole]. *)
Fixpoint getChatRole_entries (entries : list (string * list string))
    (role : string) : string :=
  match entries with
  | [] => DEFAULT_CHAT_ROLE
  | (chatRole, acceptedValues) :: rest =>
      if Array_includes acceptedValues role then chatRole
      else getChatRole_entries rest role
  end.

Definition getChatRole (role : string) : string :=
  if isChatMessageRole (JString role) then role
  else getChatRole_entries ChatRoleMap role.

End RoleNormalizer.

(** ** Provider inferencer *)

Section ProviderInferencer.

(** [modelProviderToModelPrefixMap] as the list of its properties in
    [Object.keys] order, and the default provider: configuration of
    [./constants] and [generativeConstants], taken as given. *)
Variable modelProviderToModelPrefixMap : list (string * list string).
Variable DEFAULT_MODEL_PROVIDER : string.

(** [prefixes.some((prefix) => modelName.includes(prefix))]. *)
Definition somePrefix (prefixes : list string) (modelName : string) : bool :=
  existsb (λ prefix, includes modelName prefix) prefixes.

(** The [for ... of Object.keys(...)] loop; [prefixes] is the value the
    object holds under the key [provider]. *)
Fixpoint getModelProvider_entries (entries : list (string * list string))
    (modelName : string) : string :=
  match entries with
  | [] => DEFAULT_MODEL_PROVIDER
  | (provider, prefixes) :: rest =>
      if somePrefix prefixes modelName then provider
      else getModelProvider_entries rest modelName
  end.

Definition getModelProviderFromModelName (modelName : string) : string :=
  getModelProvider_entries modelProviderToModelPrefixMap modelName.

End ProviderInferencer.

(** No prefix of a table entry occurs in the model name. *)
Definition noPrefixOccurs (modelName : string)
    (entry : string * list string) : Prop :=
  ∀ prefix, prefix ∈ entry.2 → ¬ occursIn prefix modelName.

(** ** The store's types *)

(** [ChatMessage]: [{ id, role, content }]; the type of identifiers belongs
    to the store. *)
Module ChatMessage.
Record t (MessageId : Type) :=
  Make { id : MessageId; role : string; content : string }.
Arguments Make {MessageId} _ _ _.
Arguments id {MessageId} _.
Arguments role {MessageId} _.
Arguments content {MessageId} _.
End ChatMessage.

(** [ModelConfig]: [{ modelName, provider }]. *)
Module ModelConfig.
Record t := Make { modelName : string; provider : string }.
End ModelConfig.

(** The template of an instance is a tagged variant.  The variant
    [__type: "chat"] carries the messages; what the other variants carry
    is the store's business. *)
Inductive PlaygroundTemplate (MessageId OtherTemplate : Type) : Type :=
| ChatTemplate (messages : list (ChatMessage.t MessageId))
| OtherVariant (template : OtherTemplate).
Arguments ChatTemplate {MessageId OtherTemplate} _.
Arguments OtherVariant {MessageId OtherTemplate} _.

(** [output: ChatMessage[] | string | undefined]. *)
Inductive Output (MessageId : Type) : Type :=
| OutputUndefined
| OutputString (value : string)
| OutputMessages (messages : list (ChatMessage.t MessageId)).
Arguments OutputUndefined {MessageId}.
Arguments OutputString {MessageId} _.
Arguments OutputMessages {MessageId} _.

(** [PlaygroundInstance]: the three fields this module writes, and [rest],
    every other field the store's constructor supplies. *)
Module PlaygroundInstance.
Record t (MessageId OtherTemplate Rest : Type) := Make {
  model : ModelConfig.t;
  template : PlaygroundTemplate MessageId OtherTemplate;
  output : Output MessageId;
  rest : Rest
}.
Arguments Make {MessageId OtherTemplate Rest} _ _ _ _.
Arguments model {MessageId OtherTemplate Rest} _.
Arguments template {MessageId OtherTemplate Rest} _.
Arguments output {MessageId OtherTemplate Rest} _.
Arguments rest {MessageId OtherTemplate Rest} _.
End PlaygroundInstance.

(** [PlaygroundSpan]: the span handed over by the page loader; only its
    serialized attributes are read. *)
Record PlaygroundSpan := { attributes : string }.

(** What [safelyParseJSON] returns: [{ json, parseError }], [parseError]
    being absent when the text parsed. *)
Inductive SyntaxError := MkSyntaxError (message : string).
Record SafeParse := { json : JSON; parseError : option SyntaxError }.

(** ** Computations on the store

    [generateMessageId] and [createPlaygroundInstance] read and advance
    counters of the store module; a computation takes the store and returns
    its result with the store it leaves. *)
Definition State (Store A : Type) : Type := Store → A * Store.

Global Instance State_ret {Store} : MRet (State Store) :=
  λ A x st, (x, st).
Global Instance State_bind {Store} : MBind (State Store) :=
  λ A B f m st, let '(x, st') := m st in f x st'.

(** The identifiers that [n] successive calls of a generator return from
    store [st], and the store they leave. *)
Fixpoint generated {Store MessageId} (gen : State Store MessageId)
    (n : nat) (st : Store) : list MessageId * Store :=
  match n with
  | 0 => ([], st)
  | S n' => let '(i, st1) := gen st in
            let '(ids, st2) := generated gen n' st1 in
            (i :: ids, st2)
  end.

(** ** Results of the extractors *)

Module TemplateMessages.
Record t (MessageId : Type) := Make {
  messageParsingErrors : list string;
  messages : option (list (ChatMessage.t MessageId))
}.
Arguments Make {MessageId} _ _.
Arguments messageParsingErrors {MessageId} _.
Arguments messages {MessageId} _.
End TemplateMessages.

Module ExtractedOutput.
Record t (MessageId : Type) := Make {
  output : Output MessageId;
  outputParsingErrors : list string
}.
Arguments Make {MessageId} _ _.
Arguments output {MessageId} _.
Arguments outputParsingErrors {MessageId} _.
End ExtractedOutput.

Module ExtractedModelConfig.
Record t := Make {
  modelConfig : option ModelConfig.t;
  parsingErrors : list string
}.
End ExtractedModelConfig.

Module Transformed.
Record t (MessageId OtherTemplate Rest : Type) := Make {
  playgroundInstance : PlaygroundInstance.t MessageId OtherTemplate Rest;
  parsingErrors : list string
}.
Arguments Make {MessageId OtherTemplate Rest} _ _.
Arguments playgroundInstance {MessageId OtherTemplate Rest} _.
Arguments parsingErrors {MessageId OtherTemplate Rest} _.
End Transformed.

(** ** Attribute extractors and instance transformer *)

Section Playground.

Context {Store MessageId OtherTemplate Rest : Type}.

(** Collaborators of the store and of [jsonUtils], taken as given. *)
Variable generateMessageId : State Store MessageId.
Variable createPlaygroundInstance :
  State Store (PlaygroundInstance.t MessageId OtherTemplate Rest).
Variable safelyParseJSON : string → SafeParse.

(** Configuration of [./constants] and [generativeConstants], taken as
    given. *)
Variable chatMessageRoles : list string.
Variable ChatRoleMap : list (string * list string).
Variable DEFAULT_CHAT_ROLE : string.
Variable modelProviderToModelPrefixMap : list (string * list string).
Variable DEFAULT_MODEL_PROVIDER : string.
Variable SPAN_ATTRIBUTES_PARSING_ERROR : string.
Variable INPUT_MESSAGES_PARSING_ERROR : string.
Variable OUTPUT_MESSAGES_PARSING_ERROR : string.
Variable OUTPUT_VALUE_PARSING_ERROR : string.
Variable MODEL_NAME_PARSING_ERROR : string.

(** The callback of [messages.map]: one identifier is drawn, the role is
    normalized, the content is copied. *)
Definition toChatMessage (m : MessageSchema.t)
    : State Store (ChatMessage.t MessageId) :=
  id ← generateMessageId;
  mret (ChatMessage.Make id
          (getChatRole chatMessageRoles ChatRoleMap DEFAULT_CHAT_ROLE
             (MessageSchema.role (MessageSchema.message m)))
          (MessageSchema.content (MessageSchema.message m))).

Definition processAttributeMessagesToChatMessage
    (messages : list MessageSchema.t)
    : State Store (list (ChatMessage.t MessageId)) :=
  mapM toChatMessage messages.

Definition getTemplateMessagesFromAttributes (parsedAttributes : JSON)
    : State Store (TemplateMessages.t MessageId) :=
  match llmInputMessageSchema parsedAttributes with
  | None =>
      mret (TemplateMessages.Make [INPUT_MESSAGES_PARSING_ERROR] None)
  | Some input_messages =>
      messages ← processAttributeMessagesToChatMessage input_messages;
      mret (TemplateMessages.Make [] (Some messages))
  end.

Definition getOutputFromAttributes (parsedAttributes : JSON)
    : State Store (ExtractedOutput.t MessageId) :=
  let outputParsingErrors : list string := [] in
  match llmOutputMessageSchema parsedAttributes with
  | Some output_messages =>
      output ← processAttributeMessagesToChatMessage output_messages;
      mret (ExtractedOutput.Make (OutputMessages output) outputParsingErrors)
  | None =>
      let outputParsingErrors :=
        outputParsingErrors ++ [OUTPUT_MESSAGES_PARSING_ERROR] in
      match outputSchema parsedAttributes with
      | Some value =>
          mret (ExtractedOutput.Make (OutputString value) outputParsingErrors)
      | None =>
          let outputParsingErrors :=
            outputParsingErrors ++ [OUTPUT_VALUE_PARSING_ERROR] in
          mret (ExtractedOutput.Make OutputUndefined outputParsingErrors)
      end
  end.

Definition getModelConfigFromAttributes (parsedAttributes : JSON)
    : ExtractedModelConfig.t :=
  match modelNameSchema parsedAttributes with
  | Some model_name =>
      ExtractedModelConfig.Make
        (Some (ModelConfig.Make model_name
                 (getModelProviderFromModelName
                    modelProviderToModelPrefixMap DEFAULT_MODEL_PROVIDER
                    model_name)))
        []
  | None => ExtractedModelConfig.Make None [MODEL_NAME_PARSING_ERROR]
  end.

(** The object literal of the last [return]: the spread of the baseline
    instance with [model], [template] and [output] written over it. *)
Definition mergeInstance
    (basePlaygroundInstance : PlaygroundInstance.t MessageId OtherTemplate Rest)
    (messages : option (list (ChatMessage.t MessageId)))
    (output : Output MessageId)
    (modelConfig : option ModelConfig.t)
    : PlaygroundInstance.t MessageId OtherTemplate Rest :=
  PlaygroundInstance.Make
    (match modelConfig with
     | Some config => config
     | None => PlaygroundInstance.model basePlaygroundInstance
     end)
    (match messages with
     | Some messages => ChatTemplate messages
     | None => PlaygroundInstance.template basePlaygroundInstance
     end)
    output
    (PlaygroundInstance.rest basePlaygroundInstance).

Definition transformSpanAttributesToPlaygroundInstance (span : PlaygroundSpan)
    : State Store (Transformed.t MessageId OtherTemplate Rest) :=
  basePlaygroundInstance ← createPlaygroundInstance;
  let parsed := safelyParseJSON (attributes span) in
  let parsedAttributes := json parsed in
  match parseError parsed with
  | Some _ =>
      mret (Transformed.Make basePlaygroundInstance
              [SPAN_ATTRIBUTES_PARSING_ERROR])
  | None =>
      extractedMessages ← getTemplateMessagesFromAttributes parsedAttributes;
      extractedOutput ← getOutputFromAttributes parsedAttributes;
      let extractedModel := getModelConfigFromAttributes parsedAttributes in
      mret (Transformed.Make
              (mergeInstance basePlaygroundInstance
                 (TemplateMessages.messages extractedMessages)
                 (ExtractedOutput.output extractedOutput)
                 (ExtractedModelConfig.modelConfig extractedModel))
              (TemplateMessages.messageParsingErrors extractedMessages
               ++ ExtractedOutput.outputParsingErrors extractedOutput
               ++ ExtractedModelConfig.parsingErrors extractedModel))
  end.

End Playground.

(** ** Notions used to state properties *)

(** The typing of the role configuration: the keys of [ChatRoleMap] and the
    default role are canonical roles, as [Record<ChatMessageRole, string[]>]
    and the return type of [getChatRole] require. *)
Definition rolesWellTyped (chatMessageRoles : list string)
    (ChatRoleMap : list (string * list string))
    (DEFAULT_CHAT_ROLE : string) : Prop :=
  DEFAULT_CHAT_ROLE ∈ chatMessageRoles
  ∧ Forall (λ entry, entry.1 ∈ chatMessageRoles) ChatRoleMap.

(** How many input messages, and how many output messages, the attributes
    hold when the respective shape validates; none otherwise. *)
Definition inputMessageCount (parsedAttributes : JSON) : nat :=
  match llmInputMessageSchema parsedAttributes with
  | Some input_messages => length input_messages
  | None => 0
  end.

Definition outputMessageCount (parsedAttributes : JSON) : nat :=
  match llmOutputMessageSchema parsedAttributes with
  | Some output_messages => length output_messages
  | None => 0
  end.

(** A parsed value that is no object, or an object with neither an [llm]
    nor an [output] property. *)
Definition lacksLlmAndOutput (parsedAttributes : JSON) : Prop :=
  match parsedAttributes with
  | JObject props => getProp "llm" props = None ∧ getProp "output" props = None
  | _ => True
  end.

(** ** A sample configuration

    One store, one parser and one set of tables to run the definitions on:
    two counters as the store, the role and provider tables of a usual
    deployment, and a parser that knows the documents below. *)

(** [JSON.stringify] on values whose strings need no escape. *)
Definition quoted (s : string) : string :=
  String "034" (s +:+ String "034" "").

Fixpoint stringify (v : JSON) : string :=
  match v with
  | JNull => "null"
  | JBool true => "true"
  | JBool false => "false"
  | JNumber lexeme => lexeme
  | JString s => quoted s
  | JArray items =>
      "[" +:+
      (fix go (items : list JSON) : string :=
         match items with
         | [] => ""
         | [x] => stringify x
         | x :: rest => stringify x +:+ "," +:+ go rest
         end) items
      +:+ "]"
  | JObject props =>
      "{" +:+
      (fix go (props : list (string * JSON)) : string :=
         match props with
         | [] => ""
         | [(k, x)] => quoted k +:+ ":" +:+ stringify x
         | (k, x) :: rest => quoted k +:+ ":" +:+ stringify x +:+ "," +:+ go rest
         end) props
      +:+ "}"
  end.

Module Sample.

(** The store: the next instance identifier and the next message
    identifier. *)
Definition Store : Type := nat * nat.

Definition generateMessageId : State Store nat :=
  λ '(instanceId, messageId), (messageId, (instanceId, S messageId)).

Definition DEFAULT_CHAT_ROLE : string := "user".
Definition DEFAULT_MODEL_PROVIDER : string := "OPENAI".

Definition chatMessageRoles : list string := ["user"; "ai"; "system"; "tool"].

Definition ChatRoleMap : list (string * list string) :=
  [("user", ["user"; "human"]);
   ("ai", ["assistant"; "bot"; "ai"]);
   ("system", ["system"]);
   ("tool", ["tool"])].

Definition modelProviderToModelPrefixMap : list (string * list string) :=
  [("AZURE_OPENAI", []);
   ("ANTHROPIC", ["claude"]);
   ("OPENAI", ["gpt"; "o1"])].

Definition SPAN_ATTRIBUTES_PARSING_ERROR : string :=
  "Unable to parse span attributes, attributes must be valid JSON.".
Definition INPUT_MESSAGES_PARSING_ERROR : string :=
  "Unable to parse span input messages, expected messages which include a role and content.".
Definition OUTPUT_MESSAGES_PARSING_ERROR : string :=
  "Unable to parse span output messages, expected messages which include a role and content.".
Definition OUTPUT_VALUE_PARSING_ERROR : string :=
  "Unable to parse span output expected output.value to be present.".
Definition MODEL_NAME_PARSING_ERROR : string :=
  "Unable to parse model name, expected llm.model_name to be present.".

(** The baseline instance: a default model, a chat template of two
    messages whose identifiers are drawn from the store, no output, and
    the instance identifier as the remaining field. *)
Definition createPlaygroundInstance
    : State Store (PlaygroundInstance.t nat string nat) :=
  λ '(instanceId, messageId),
    (PlaygroundInstance.Make
       (ModelConfig.Make "gpt-4o" DEFAULT_MODEL_PROVIDER)
       (ChatTemplate
          [ChatMessage.Make messageId "system" "You are a chatbot";
           ChatMessage.Make (S messageId) "user" "{{question}}"])
       OutputUndefined
       instanceId,
     (S instanceId, S (S messageId))).

Definition message (role content : string) : JSON :=
  JObject [("message",
            JObject [("role", JString role); ("content", JString content)])].

(** Attributes with an output value only. *)
Definition outputValueAttributes : JSON :=
  JObject [("output", JObject [("value", JString "42")])].

(** Attributes of a chat completion: model name, one input message, one
    output message. *)
Definition chatAttributes : JSON :=
  JObject
    [("llm",
      JObject
        [("model_name", JString "claude-3-5-sonnet");
         ("input_messages", JArray [message "human" "hi"]);
         ("output_messages", JArray [message "assistant" "hello"])])].

(** Attributes whose input messages are malformed (a numeric content) and
    that carry an output value. *)
Definition partialAttributes : JSON :=
  JObject
    [("llm",
      JObject
        [("model_name", JString "bedrock-claude-v2");
         ("input_messages",
          JArray [message "user" "hi";
                  JObject [("message",
                            JObject [("role", JString "user");
                                     ("content", JNumber "7")])]])]);
     ("output", JObject [("value", JString "done")])].

Definition documents : list JSON :=
  [JObject []; JNull; outputValueAttributes; chatAttributes;
   partialAttributes].

(** The parser of the sample: it parses the texts of [documents] and
    rejects every other text. *)
Fixpoint parseAmong (candidates : list JSON) (text : string) : SafeParse :=
  match candidates with
  | [] => {| json := JNull;
             parseError := Some (MkSyntaxError "Unexpected token") |}
  | document :: rest =>
      if String.eqb (stringify document) text
      then {| json := document; parseError := None |}
      else parseAmong rest text
  end.

Definition safelyParseJSON (text : string) : SafeParse :=
  parseAmong documents text.

Definition getChatRole : string → string :=
  getChatRole chatMessageRoles ChatRoleMap DEFAULT_CHAT_ROLE.

Definition getModelProviderFromModelName : string → string :=
  getModelProviderFromModelName modelProviderToModelPrefixMap
    DEFAULT_MODEL_PROVIDER.

Definition getTemplateMessagesFromAttributes
    : JSON → State Store (TemplateMessages.t nat) :=
  getTemplateMessagesFromAttributes generateMessageId chatMessageRoles
    ChatRoleMap DEFAULT_CHAT_ROLE INPUT_MESSAGES_PARSING_ERROR.

Definition getOutputFromAttributes
    : JSON → State Store (ExtractedOutput.t nat) :=
  getOutputFromAttributes generateMessageId chatMessageRoles ChatRoleMap
    DEFAULT_CHAT_ROLE OUTPUT_MESSAGES_PARSING_ERROR OUTPUT_VALUE_PARSING_ERROR.

Definition getModelConfigFromAttributes : JSON → ExtractedModelConfig.t :=
  getModelConfigFromAttributes modelProviderToModelPrefixMap
    DEFAULT_MODEL_PROVIDER MODEL_NAME_PARSING_ERROR.

Definition transformSpanAttributesToPlaygroundInstance
    : PlaygroundSpan → State Store (Transformed.t nat string nat) :=
  transformSpanAttributesToPlaygroundInstance generateMessageId
    createPlaygroundInstance safelyParseJSON chatMessageRoles ChatRoleMap
    DEFAULT_CHAT_ROLE modelProviderToModelPrefixMap DEFAULT_MODEL_PROVIDER
    SPAN_ATTRIBUTES_PARSING_ERROR INPUT_MESSAGES_PARSING_ERROR
    OUTPUT_MESSAGES_PARSING_ERROR OUTPUT_VALUE_PARSING_ERROR
    MODEL_NAME_PARSING_ERROR.

(** The span whose attributes are the text of a document. *)
Definition spanOf (document : JSON) : PlaygroundSpan :=
  {| attributes := stringify document |}.

End Sample.


(** * Properties *)

(** ** Substring search *)

Lemma prefix_app_iff (p s : string) :
  String.prefix p s = true ↔ ∃ rest, s = p +:+ rest.
Proof.
  revert s. induction p as [|a p IH]; intros s.
  - destruct s; simpl; split; eauto.
  - destruct s as [|b s]; simpl.
    + split; [discriminate | intros [rest Hrest]; discriminate].
    + destruct (Ascii.ascii_dec a b) as [->|Hab].
      * rewrite IH. split; intros [rest Hrest]; exists rest.
        -- by rewrite Hrest.
        -- by injection Hrest.
      * split; [discriminate|]. intros [rest Hrest]. injection Hrest as ? ?.
        congruence.
Qed.

(** [includes] is the substring test: the searched string may start at any
    position of [s]. *)
Lemma includes_iff (s searchString : string) :
  includes s searchString = true ↔ occursIn searchString s.
Proof.
  unfold occursIn.
  induction s as [|a s IH]; cbn [includes].
  - destruct (String.prefix searchString "") eqn:Hp.
    + split; [intros _|done]. apply prefix_app_iff in Hp as [rest Hrest].
      by exists "", rest.
    + split; [done|]. intros ([|b before] & after & Heq); [|discriminate].
      simpl in Heq. assert (String.prefix searchString "" = true) as Hp'.
      { apply prefix_app_iff. by exists after. }
      congruence.
  - destruct (String.prefix searchString (String a s)) eqn:Hp.
    + split; [intros _|done]. apply prefix_app_iff in Hp as [rest Hrest].
      by exists "", rest.
    + rewrite IH. split.
      * intros (before & after & ->). by exists (String a before), after.
      * intros ([|b before] & after & Heq); simpl in Heq.
        -- assert (String.prefix searchString (String a s) = true) as Hp'.
           { apply prefix_app_iff. by exists after. }
           congruence.
        -- injection Heq as -> ->. by exists before, after.
Qed.

Lemma somePrefix_iff (prefixes : list string) (modelName : string) :
  somePrefix prefixes modelName = true ↔
  ∃ prefix, prefix ∈ prefixes ∧ occursIn prefix modelName.
Proof.
  unfold somePrefix. rewrite existsb_exists.
  split; intros (prefix & Hin & Hocc); exists prefix.
  - by rewrite list_elem_of_In, <- includes_iff.
  - by rewrite <- list_elem_of_In, includes_iff.
Qed.

(** ** Role normalizer *)

Section RoleNormalizerProperties.

Variable chatMessageRoles : list string.
Variable ChatRoleMap : list (string * list string).
Variable DEFAULT_CHAT_ROLE : string.

Lemma isChatMessageRole_string (s : string) :
  isChatMessageRole chatMessageRoles (JString s) = true ↔
  s ∈ chatMessageRoles.
Proof.
  unfold isChatMessageRole, chatMessageRolesSchema, Array_includes.
  rewrite bool_decide_eq_true.
  case_bool_decide; [by split; eauto|].
  split; [by intros [? ?]|done].
Qed.

(** The loop returns the key of the first entry that accepts the role. *)
Lemma getChatRole_entries_first before chatRole acceptedValues after role :
  role ∈ acceptedValues →
  Forall (λ entry, role ∉ entry.2) before →
  getChatRole_entries DEFAULT_CHAT_ROLE
    (before ++ (chatRole, acceptedValues) :: after) role = chatRole.
Proof.
  intros Hin Hbefore.
  induction Hbefore as [|[r acc] before Hnot _ IH]; simpl.
  - unfold Array_includes. by rewrite bool_decide_eq_true_2.
  - unfold Array_includes. by rewrite bool_decide_eq_false_2.
Qed.


(** Whatever the loop returns is a key of the table or the default. *)
Lemma getChatRole_entries_range entries role :
  getChatRole_entries DEFAULT_CHAT_ROLE entries role
    ∈ DEFAULT_CHAT_ROLE :: entries.*1.
Proof.
  induction entries as [|[r acc] entries IH]; simpl.
  - apply elem_of_cons; by left.
  - destruct (Array_includes acc role).
    + apply elem_of_cons; right. apply elem_of_cons; by left.
    + apply elem_of_cons in IH as [IH|IH]; rewrite !elem_of_cons; auto.
Qed.

End RoleNormalizerProperties.

(** C9.  On a canonical role the normalizer is the identity: for every
    member [r] of the canonical role enumeration, [getChatRole r = r]. *)
Theorem getChatRole_canonical
    (chatMessageRoles : list string) (ChatRoleMap : list (string * list string))
    (DEFAULT_CHAT_ROLE r : string) :
  r ∈ chatMessageRoles →
  getChatRole chatMessageRoles ChatRoleMap DEFAULT_CHAT_ROLE r = r.
Proof.
  intros Hr. unfold getChatRole.
  by rewrite (proj2 (isChatMessageRole_string chatMessageRoles r) Hr).
Qed.


(** ** Provider inferencer *)

Section ProviderInferencerProperties.

Variable DEFAULT_MODEL_PROVIDER : string.

Lemma somePrefix_false prefixes modelName provider :
  noPrefixOccurs modelName (provider, prefixes) →
  somePrefix prefixes modelName = false.
Proof.
  intros Hnone. apply not_true_is_false. rewrite somePrefix_iff.
  intros (prefix & Hin & Hocc). by apply (Hnone prefix).
Qed.

Lemma getModelProvider_entries_first before provider prefixes after modelName :
  somePrefix prefixes modelName = true →
  Forall (noPrefixOccurs modelName) before →
  getModelProvider_entries DEFAULT_MODEL_PROVIDER
    (before ++ (provider, prefixes) :: after) modelName = provider.
Proof.
  intros Hsome Hbefore.
  induction Hbefore as [|[q qs] before Hq _ IH]; simpl.
  - by rewrite Hsome.
  - by rewrite (somePrefix_false _ _ _ Hq).
Qed.

Lemma getModelProvider_entries_none entries modelName :
  Forall (noPrefixOccurs modelName) entries →
  getModelProvider_entries DEFAULT_MODEL_PROVIDER entries modelName
    = DEFAULT_MODEL_PROVIDER.
Proof.
  induction 1 as [|[q qs] entries Hq _ IH]; simpl; [done|].
  by rewrite (somePrefix_false _ _ _ Hq).
Qed.

Lemma getModelProvider_entries_range entries modelName :
  getModelProvider_entries DEFAULT_MODEL_PROVIDER entries modelName
    ∈ DEFAULT_MODEL_PROVIDER :: entries.*1.
Proof.
  induction entries as [|[q qs] entries IH]; simpl.
  - apply elem_of_cons; by left.
  - destruct (somePrefix qs modelName).
    + apply elem_of_cons; right. apply elem_of_cons; by left.
    + apply elem_of_cons in IH as [IH|IH]; rewrite !elem_of_cons; auto.
Qed.

End ProviderInferencerProperties.

(** C8.  The provider inferencer walks the table in key order and returns
    the first provider one of whose prefixes occurs somewhere in the model
    name, at any position; when no prefix of any provider occurs it returns
    the default provider; and it always returns a provider of the table or
    the default, there is no failing case. *)
Theorem getModelProviderFromModelName_first_match
    (modelProviderToModelPrefixMap : list (string * list string))
    (DEFAULT_MODEL_PROVIDER modelName : string) :
  (∀ before provider prefixes after prefix,
      modelProviderToModelPrefixMap
        = before ++ (provider, prefixes) :: after →
      prefix ∈ prefixes →
      occursIn prefix modelName →
      Forall (noPrefixOccurs modelName) before →
      getModelProviderFromModelName modelProviderToModelPrefixMap
        DEFAULT_MODEL_PROVIDER modelName = provider)
  ∧ (Forall (noPrefixOccurs modelName) modelProviderToModelPrefixMap →
     getModelProviderFromModelName modelProviderToModelPrefixMap
       DEFAULT_MODEL_PROVIDER modelName = DEFAULT_MODEL_PROVIDER)
  ∧ getModelProviderFromModelName modelProviderToModelPrefixMap
      DEFAULT_MODEL_PROVIDER modelName
      ∈ DEFAULT_MODEL_PROVIDER :: modelProviderToModelPrefixMap.*1.
Proof.
  unfold getModelProviderFromModelName. split; [|split].
  - intros before provider prefixes after prefix -> Hin Hocc Hbefore.
    apply getModelProvider_entries_first; [|done].
    apply somePrefix_iff. eauto.
  - apply getModelProvider_entries_none.
  - apply getModelProvider_entries_range.
Qed.

(** ** Attribute extractors *)

Section ExtractorProperties.

Context {Store MessageId : Type}.
Variable generateMessageId : State Store MessageId.
Variable chatMessageRoles : list string.
Variable ChatRoleMap : list (string * list string).
Variable DEFAULT_CHAT_ROLE : string.

Local Abbreviation getChatRole' :=
  (getChatRole chatMessageRoles ChatRoleMap DEFAULT_CHAT_ROLE).
Local Abbreviation process :=
  (processAttributeMessagesToChatMessage generateMessageId
     chatMessageRoles ChatRoleMap DEFAULT_CHAT_ROLE).

Lemma process_nil st : process [] st = ([], st).
Proof. reflexivity. Qed.

Lemma process_cons m messages st :
  process (m :: messages) st =
    let '(id, st1) := generateMessageId st in
    let '(chats, st2) := process messages st1 in
    (ChatMessage.Make id
       (getChatRole' (MessageSchema.role (MessageSchema.message m)))
       (MessageSchema.content (MessageSchema.message m)) :: chats, st2).
Proof.
  unfold processAttributeMessagesToChatMessage. cbn [mapM].
  unfold toChatMessage, mbind, State_bind, mret, State_ret.
  by destruct (generateMessageId st) as [id st1].
Qed.

(** The messages built from the entries: the [i]-th message carries the
    [i]-th generated identifier, the normalized role and the content of
    the [i]-th entry; the store is left as the generator left it. *)
Lemma process_generated messages st :
  process messages st =
    (zip_with
       (λ id m, ChatMessage.Make id
          (getChatRole' (MessageSchema.role (MessageSchema.message m)))
          (MessageSchema.content (MessageSchema.message m)))
       (generated generateMessageId (length messages) st).1 messages,
     (generated generateMessageId (length messages) st).2).
Proof.
  revert st. induction messages as [|m messages IH]; intros st; [done|].
  rewrite process_cons. cbn [length generated].
  destruct (generateMessageId st) as [id st1]. rewrite IH.
  by destruct (generated generateMessageId (length messages) st1).
Qed.

Lemma generated_length n st :
  length (generated generateMessageId n st).1 = n.
Proof.
  revert st. induction n as [|n IH]; intros st; simpl; [done|].
  destruct (generateMessageId st) as [id st1]. specialize (IH st1).
  destruct (generated generateMessageId n st1). simpl in *. by rewrite IH.
Qed.

(** The arrays the two message schemas accept: every item must pass the
    message schema, one rejected item rejects the whole array. *)
Lemma messages_array_all_or_nothing items (data : list MessageSchema.t) :
  Zod.array messageSchema (JArray items) = Some data ↔
  Forall2 (λ item m, messageSchema item = Some m) items data.
Proof. apply mapM_Some. Qed.

Lemma messages_array_rejected items :
  Exists (λ item, messageSchema item = None) items →
  Zod.array messageSchema (JArray items) = None.
Proof. apply mapM_None_2. Qed.

Variable INPUT_MESSAGES_PARSING_ERROR : string.
Variable OUTPUT_MESSAGES_PARSING_ERROR : string.
Variable OUTPUT_VALUE_PARSING_ERROR : string.

Local Abbreviation getTemplateMessagesFromAttributes' :=
  (getTemplateMessagesFromAttributes generateMessageId chatMessageRoles
     ChatRoleMap DEFAULT_CHAT_ROLE INPUT_MESSAGES_PARSING_ERROR).
Local Abbreviation getOutputFromAttributes' :=
  (getOutputFromAttributes generateMessageId chatMessageRoles
     ChatRoleMap DEFAULT_CHAT_ROLE OUTPUT_MESSAGES_PARSING_ERROR
     OUTPUT_VALUE_PARSING_ERROR).

(** C6.  The input-message extractor is all-or-nothing.  When the whole
    shape [{ llm: { input_messages: [...] } }] validates, it returns one
    chat message per entry, in order, each with the content of its entry
    copied, the role of its entry passed through [getChatRole], and the
    identifier drawn for it from the generator (one call per entry, in
    order), with an empty error list.  When validation fails it returns no
    messages, the error list [[INPUT_MESSAGES_PARSING_ERROR]], and draws no
    identifier. *)
Theorem getTemplateMessagesFromAttributes_all_or_nothing
    (parsedAttributes : JSON) (st : Store) :
  match llmInputMessageSchema parsedAttributes with
  | Some input_messages =>
      let '(ids, st') :=
        generated generateMessageId (length input_messages) st in
      ∃ messages,
        getTemplateMessagesFromAttributes' parsedAttributes st
          = (TemplateMessages.Make [] (Some messages), st')
        ∧ Forall2
            (λ entry chat,
               ChatMessage.content chat
                 = MessageSchema.content (MessageSchema.message entry)
               ∧ ChatMessage.role chat
                 = getChatRole'
                     (MessageSchema.role (MessageSchema.message entry)))
            input_messages messages
        ∧ ChatMessage.id <$> messages = ids
  | None =>
      getTemplateMessagesFromAttributes' parsedAttributes st
        = (TemplateMessages.Make [INPUT_MESSAGES_PARSING_ERROR] None, st)
  end.
Proof.
  unfold getTemplateMessagesFromAttributes.
  destruct (llmInputMessageSchema parsedAttributes) as [input|]; [|done].
  unfold mbind, State_bind. rewrite process_generated.
  pose proof (generated_length (length input) st) as Hlen.
  destruct (generated generateMessageId (length input) st) as [ids st'].
  simpl in *. eexists. split; [reflexivity|]. clear st st'.
  revert ids Hlen. induction input as [|m input IH]; intros [|i ids] Hlen;
    simpl in *; try discriminate.
  - by split.
  - destruct (IH ids) as [IH1 IH2]; [by injection Hlen|].
    split; [by constructor|]. f_equal. apply IH2.
Qed.

(** C3.  When the [llm.output_messages] shape is rejected and the
    [{ output: { value: string } }] shape is accepted, the output extractor
    returns that string as the output with the error list exactly
    [[OUTPUT_MESSAGES_PARSING_ERROR]]: the first tier's tag is kept, no
    second tag is added (and no identifier is drawn). *)
Theorem getOutputFromAttributes_output_value
    (parsedAttributes : JSON) (value : string) (st : Store) :
  llmOutputMessageSchema parsedAttributes = None →
  outputSchema parsedAttributes = Some value →
  getOutputFromAttributes' parsedAttributes st
    = (ExtractedOutput.Make (OutputString value)
         [OUTPUT_MESSAGES_PARSING_ERROR], st).
Proof.
  intros Hmessages Hvalue. unfold getOutputFromAttributes.
  by rewrite Hmessages, Hvalue.
Qed.

(** C10.  The result of the output extractor has one of three shapes: a
    list of chat messages with no error; a string with exactly
    [[OUTPUT_MESSAGES_PARSING_ERROR]]; or [undefined] with exactly
    [[OUTPUT_MESSAGES_PARSING_ERROR; OUTPUT_VALUE_PARSING_ERROR]].  The
    three error lists differ, so the error list alone tells which shape the
    output has, and no other combination is returned. *)
Theorem getOutputFromAttributes_shapes
    (parsedAttributes : JSON) (st : Store) :
  let result := (getOutputFromAttributes' parsedAttributes st).1 in
  let output := ExtractedOutput.output result in
  let errors := ExtractedOutput.outputParsingErrors result in
  ((∃ messages, output = OutputMessages messages ∧ errors = [])
   ∨ (∃ value, output = OutputString value
               ∧ errors = [OUTPUT_MESSAGES_PARSING_ERROR])
   ∨ (output = OutputUndefined
      ∧ errors = [OUTPUT_MESSAGES_PARSING_ERROR;
                  OUTPUT_VALUE_PARSING_ERROR]))
  ∧ (errors = [] ↔ ∃ messages, output = OutputMessages messages)
  ∧ (errors = [OUTPUT_MESSAGES_PARSING_ERROR]
     ↔ ∃ value, output = OutputString value)
  ∧ (errors = [OUTPUT_MESSAGES_PARSING_ERROR; OUTPUT_VALUE_PARSING_ERROR]
     ↔ output = OutputUndefined).
Proof.
  unfold getOutputFromAttributes.
  destruct (llmOutputMessageSchema parsedAttributes) as [output_messages|].
  - unfold mbind, State_bind.
    destruct (processAttributeMessagesToChatMessage _ _ _ _ _ st)
      as [messages st'].
    simpl. split; [left; eauto|].
    repeat split; try done; eauto; by intros [? ?].
  - destruct (outputSchema parsedAttributes) as [value|]; simpl.
    + split; [right; left; eauto|].
      repeat split; try done; eauto; by intros [? ?].
    + split; [right; right; eauto|].
      repeat split; try done; by intros [? ?].
Qed.

End ExtractorProperties.

(** ** Instance transformer *)

Section TransformerProperties.

Context {Store MessageId OtherTemplate Rest : Type}.
Variable generateMessageId : State Store MessageId.
Variable createPlaygroundInstance :
  State Store (PlaygroundInstance.t MessageId OtherTemplate Rest).
Variable safelyParseJSON : string → SafeParse.
Variable chatMessageRoles : list string.
Variable ChatRoleMap : list (string * list string).
Variable DEFAULT_CHAT_ROLE : string.
Variable modelProviderToModelPrefixMap : list (string * list string).
Variable DEFAULT_MODEL_PROVIDER : string.
Variable SPAN_ATTRIBUTES_PARSING_ERROR : string.
Variable INPUT_MESSAGES_PARSING_ERROR : string.
Variable OUTPUT_MESSAGES_PARSING_ERROR : string.
Variable OUTPUT_VALUE_PARSING_ERROR : string.
Variable MODEL_NAME_PARSING_ERROR : string.

Local Abbreviation getTemplateMessagesFromAttributes' :=
  (getTemplateMessagesFromAttributes generateMessageId chatMessageRoles
     ChatRoleMap DEFAULT_CHAT_ROLE INPUT_MESSAGES_PARSING_ERROR).
Local Abbreviation getOutputFromAttributes' :=
  (getOutputFromAttributes generateMessageId chatMessageRoles
     ChatRoleMap DEFAULT_CHAT_ROLE OUTPUT_MESSAGES_PARSING_ERROR
     OUTPUT_VALUE_PARSING_ERROR).
Local Abbreviation getModelConfigFromAttributes' :=
  (getModelConfigFromAttributes modelProviderToModelPrefixMap
     DEFAULT_MODEL_PROVIDER MODEL_NAME_PARSING_ERROR).
Local Abbreviation transform :=
  (transformSpanAttributesToPlaygroundInstance generateMessageId
     createPlaygroundInstance safelyParseJSON chatMessageRoles ChatRoleMap
     DEFAULT_CHAT_ROLE modelProviderToModelPrefixMap DEFAULT_MODEL_PROVIDER
     SPAN_ATTRIBUTES_PARSING_ERROR INPUT_MESSAGES_PARSING_ERROR
     OUTPUT_MESSAGES_PARSING_ERROR OUTPUT_VALUE_PARSING_ERROR
     MODEL_NAME_PARSING_ERROR).

(** The transformer on attributes that parsed, as the sequence of its
    steps: baseline, input messages, output, model configuration, merge. *)
Lemma transform_parsed (span : PlaygroundSpan) (st : Store) :
  parseError (safelyParseJSON (attributes span)) = None →
  transform span st =
    let parsedAttributes := json (safelyParseJSON (attributes span)) in
    let '(basePlaygroundInstance, st0) := createPlaygroundInstance st in
    let '(extractedMessages, st1) :=
      getTemplateMessagesFromAttributes' parsedAttributes st0 in
    let '(extractedOutput, st2) :=
      getOutputFromAttributes' parsedAttributes st1 in
    let extractedModel := getModelConfigFromAttributes' parsedAttributes in
    (Transformed.Make
       (mergeInstance basePlaygroundInstance
          (TemplateMessages.messages extractedMessages)
          (ExtractedOutput.output extractedOutput)
          (ExtractedModelConfig.modelConfig extractedModel))
       (TemplateMessages.messageParsingErrors extractedMessages
        ++ ExtractedOutput.outputParsingErrors extractedOutput
        ++ ExtractedModelConfig.parsingErrors extractedModel),
     st2).
Proof.
  intros Hparsed. unfold transformSpanAttributesToPlaygroundInstance.
  unfold mbind at 1, State_bind. cbv zeta.
  destruct (createPlaygroundInstance st) as [base st0]. rewrite Hparsed.
  unfold mbind at 1, State_bind.
  destruct (getTemplateMessagesFromAttributes' _ st0) as [em st1].
  unfold mbind at 1, State_bind.
  by destruct (getOutputFromAttributes' _ st1) as [eo st2].
Qed.

(** C1.  When the attributes of the span do not parse as JSON, the
    transformer returns the baseline instance of [createPlaygroundInstance]
    as it is, with the error list [[SPAN_ATTRIBUTES_PARSING_ERROR]] and
    nothing else; the store is the one the baseline constructor left, so no
    extractor has drawn an identifier. *)
Theorem transform_unparsable_attributes
    (span : PlaygroundSpan) (st : Store) (error : SyntaxError) :
  parseError (safelyParseJSON (attributes span)) = Some error →
  transform span st =
    (Transformed.Make (createPlaygroundInstance st).1
       [SPAN_ATTRIBUTES_PARSING_ERROR],
     (createPlaygroundInstance st).2).
Proof.
  intros Herror. unfold transformSpanAttributesToPlaygroundInstance.
  unfold mbind, State_bind. cbv zeta.
  destruct (createPlaygroundInstance st) as [base st0]. by rewrite Herror.
Qed.

(** C2.  When the attributes parsed, the instance returned has: as [model]
    the extracted model configuration when there is one and the baseline
    [model] otherwise; as [template] a chat template carrying the extracted
    messages when there are some and the baseline [template] otherwise; as
    [output] exactly what the output extractor produced, [undefined]
    included; and every other field as in the baseline instance. *)
Theorem transform_merge (span : PlaygroundSpan) (st : Store) :
  parseError (safelyParseJSON (attributes span)) = None →
  let parsedAttributes := json (safelyParseJSON (attributes span)) in
  let '(basePlaygroundInstance, st0) := createPlaygroundInstance st in
  let '(extractedMessages, st1) :=
    getTemplateMessagesFromAttributes' parsedAttributes st0 in
  let '(extractedOutput, _) :=
    getOutputFromAttributes' parsedAttributes st1 in
  let extractedModel := getModelConfigFromAttributes' parsedAttributes in
  let instance := Transformed.playgroundInstance (transform span st).1 in
  PlaygroundInstance.model instance
    = match ExtractedModelConfig.modelConfig extractedModel with
      | Some modelConfig => modelConfig
      | None => PlaygroundInstance.model basePlaygroundInstance
      end
  ∧ PlaygroundInstance.template instance
    = match TemplateMessages.messages extractedMessages with
      | Some messages => ChatTemplate messages
      | None => PlaygroundInstance.template basePlaygroundInstance
      end
  ∧ PlaygroundInstance.output instance
    = ExtractedOutput.output extractedOutput
  ∧ PlaygroundInstance.rest instance
    = PlaygroundInstance.rest basePlaygroundInstance.
Proof.
  intros Hparsed. rewrite (transform_parsed span st Hparsed). cbv zeta.
  destruct (createPlaygroundInstance st) as [base st0].
  destruct (getTemplateMessagesFromAttributes' _ st0) as [em st1].
  by destruct (getOutputFromAttributes' _ st1) as [eo st2].
Qed.

(** C4.  When the attributes parsed, the error list returned is the errors
    of the input-message extractor, followed by the errors of the output
    extractor, followed by the errors of the model-config extractor. *)
Theorem transform_parsingErrors_order (span : PlaygroundSpan) (st : Store) :
  parseError (safelyParseJSON (attributes span)) = None →
  let parsedAttributes := json (safelyParseJSON (attributes span)) in
  let st0 := (createPlaygroundInstance st).2 in
  let '(extractedMessages, st1) :=
    getTemplateMessagesFromAttributes' parsedAttributes st0 in
  let '(extractedOutput, _) :=
    getOutputFromAttributes' parsedAttributes st1 in
  let extractedModel := getModelConfigFromAttributes' parsedAttributes in
  Transformed.parsingErrors (transform span st).1
    = TemplateMessages.messageParsingErrors extractedMessages
      ++ ExtractedOutput.outputParsingErrors extractedOutput
      ++ ExtractedModelConfig.parsingErrors extractedModel.
Proof.
  intros Hparsed. rewrite (transform_parsed span st Hparsed). cbv zeta.
  destruct (createPlaygroundInstance st) as [base st0]. simpl.
  destruct (getTemplateMessagesFromAttributes' _ st0) as [em st1].
  by destruct (getOutputFromAttributes' _ st1) as [eo st2].
Qed.

(** C5.  When the attributes parse to the empty object, every extractor
    fails: the error list is the input-messages tag, the two output tags
    and the model-name tag, in this order, and the instance returned is the
    baseline instance with [output] set to [undefined]. *)
Theorem transform_empty_object (span : PlaygroundSpan) (st : Store) :
  safelyParseJSON (attributes span)
    = {| json := JObject []; parseError := None |} →
  let '(basePlaygroundInstance, st0) := createPlaygroundInstance st in
  transform span st =
    (Transformed.Make
       (PlaygroundInstance.Make
          (PlaygroundInstance.model basePlaygroundInstance)
          (PlaygroundInstance.template basePlaygroundInstance)
          OutputUndefined
          (PlaygroundInstance.rest basePlaygroundInstance))
       [INPUT_MESSAGES_PARSING_ERROR; OUTPUT_MESSAGES_PARSING_ERROR;
        OUTPUT_VALUE_PARSING_ERROR; MODEL_NAME_PARSING_ERROR],
     st0).
Proof.
  intros Hempty. rewrite transform_parsed; [|by rewrite Hempty].
  rewrite Hempty. cbv zeta.
  by destruct (createPlaygroundInstance st) as [base st0].
Qed.

End TransformerProperties.

(** ** The sample configuration *)

(** Membership and non-membership in a list of strings, and occurrence of
    a searched string, are settled by evaluation. *)
Lemma elem_of_by_evaluation (x : string) (l : list string) :
  bool_decide (x ∈ l) = true → x ∈ l.
Proof. apply bool_decide_eq_true_1. Defined.

Lemma not_elem_of_by_evaluation (x : string) (l : list string) :
  bool_decide (x ∈ l) = false → x ∉ l.
Proof. apply bool_decide_eq_false_1. Defined.

Lemma occursIn_by_evaluation (searchString s : string) :
  includes s searchString = true → occursIn searchString s.
Proof. apply includes_iff. Defined.

Lemma not_occursIn_by_evaluation (searchString s : string) :
  includes s searchString = false → ¬ occursIn searchString s.
Proof.
  intros Hfalse Hocc. apply includes_iff in Hocc.
  rewrite Hfalse in Hocc. discriminate.
Defined.

Lemma noPrefixOccurs_by_evaluation (modelName provider : string)
    (prefixes : list string) :
  somePrefix prefixes modelName = false →
  noPrefixOccurs modelName (provider, prefixes).
Proof.
  intros Hfalse prefix Hin Hocc.
  assert (somePrefix prefixes modelName = true) as Htrue.
  { apply somePrefix_iff. exists prefix. split; assumption. }
  rewrite Hfalse in Htrue. discriminate.
Defined.

Lemma getChatRole_canonical_sample :
  "system" ∈ Sample.chatMessageRoles
  ∧ Sample.getChatRole "system" = "system".
Proof.
  split.
  - apply elem_of_by_evaluation. reflexivity.
  - apply getChatRole_canonical. apply elem_of_by_evaluation. reflexivity.
Defined.





Lemma getModelProviderFromModelName_first_match_sample :
  (Sample.modelProviderToModelPrefixMap
     = [("AZURE_OPENAI", [])] ++ ("ANTHROPIC", ["claude"])
         :: [("OPENAI", ["gpt"; "o1"])]
   ∧ "claude" ∈ ["claude"]
   ∧ occursIn "claude" "bedrock-claude-v2"
   ∧ Forall (noPrefixOccurs "bedrock-claude-v2") [("AZURE_OPENAI", [])]
   ∧ Sample.getModelProviderFromModelName "bedrock-claude-v2" = "ANTHROPIC")
  ∧ (Forall (noPrefixOccurs "mistral-large")
       Sample.modelProviderToModelPrefixMap
     ∧ Sample.getModelProviderFromModelName "mistral-large"
         = Sample.DEFAULT_MODEL_PROVIDER)
  ∧ Sample.getModelProviderFromModelName "chatgpt"
      ∈ Sample.DEFAULT_MODEL_PROVIDER
          :: Sample.modelProviderToModelPrefixMap.*1.
Proof.
  assert (Forall (noPrefixOccurs "bedrock-claude-v2") [("AZURE_OPENAI", [])])
    as Hbefore.
  { repeat constructor. apply noPrefixOccurs_by_evaluation. reflexivity. }
  assert (Forall (noPrefixOccurs "mistral-large")
            Sample.modelProviderToModelPrefixMap) as Hnone.
  { repeat constructor; apply noPrefixOccurs_by_evaluation; reflexivity. }
  assert ("claude" ∈ ["claude"]) as Hin by apply list_elem_of_here.
  assert (occursIn "claude" "bedrock-claude-v2") as Hocc.
  { apply occursIn_by_evaluation. reflexivity. }
  split; [|split].
  - split; [reflexivity|]. do 3 (split; [assumption|]).
    exact (proj1 (getModelProviderFromModelName_first_match
                    Sample.modelProviderToModelPrefixMap
                    Sample.DEFAULT_MODEL_PROVIDER "bedrock-claude-v2")
             [("AZURE_OPENAI", [])] "ANTHROPIC" ["claude"]
             [("OPENAI", ["gpt"; "o1"])] "claude" eq_refl Hin Hocc Hbefore).
  - split; [assumption|].
    exact (proj1 (proj2 (getModelProviderFromModelName_first_match
                           Sample.modelProviderToModelPrefixMap
                           Sample.DEFAULT_MODEL_PROVIDER "mistral-large"))
             Hnone).
  - exact (proj2 (proj2 (getModelProviderFromModelName_first_match
                           Sample.modelProviderToModelPrefixMap
                           Sample.DEFAULT_MODEL_PROVIDER "chatgpt"))).
Defined.

(** The shape [{ llm: { input_messages } }] of the sample chat attributes
    validates: one message is built, with the next identifier of the
    store. *)
Example getTemplateMessagesFromAttributes_sample :
  Sample.getTemplateMessagesFromAttributes Sample.chatAttributes (1, 2)
    = (TemplateMessages.Make []
         (Some [ChatMessage.Make 2 "user" "hi"]), (1, 3)).
Proof. reflexivity. Qed.

(** One malformed entry rejects the whole array: nothing is extracted. *)
Example getTemplateMessagesFromAttributes_partial_sample :
  Sample.getTemplateMessagesFromAttributes Sample.partialAttributes (1, 2)
    = (TemplateMessages.Make [Sample.INPUT_MESSAGES_PARSING_ERROR] None,
       (1, 2)).
Proof. reflexivity. Qed.

Lemma getOutputFromAttributes_output_value_sample :
  llmOutputMessageSchema Sample.outputValueAttributes = None
  ∧ outputSchema Sample.outputValueAttributes = Some "42"
  ∧ Sample.getOutputFromAttributes Sample.outputValueAttributes (1, 2)
      = (ExtractedOutput.Make (OutputString "42")
           [Sample.OUTPUT_MESSAGES_PARSING_ERROR], (1, 2)).
Proof.
  split; [reflexivity|]. split; [reflexivity|].
  apply getOutputFromAttributes_output_value; reflexivity.
Defined.

Lemma transform_unparsable_attributes_sample :
  parseError (Sample.safelyParseJSON "{bad")
    = Some (MkSyntaxError "Unexpected token")
  ∧ Sample.transformSpanAttributesToPlaygroundInstance
      {| attributes := "{bad" |} (3, 5)
    = (Transformed.Make (Sample.createPlaygroundInstance (3, 5)).1
         [Sample.SPAN_ATTRIBUTES_PARSING_ERROR],
       (4, 7)).
Proof.
  split; [reflexivity|].
  exact (transform_unparsable_attributes Sample.generateMessageId
           Sample.createPlaygroundInstance Sample.safelyParseJSON
           Sample.chatMessageRoles Sample.ChatRoleMap
           Sample.DEFAULT_CHAT_ROLE Sample.modelProviderToModelPrefixMap
           Sample.DEFAULT_MODEL_PROVIDER Sample.SPAN_ATTRIBUTES_PARSING_ERROR
           Sample.INPUT_MESSAGES_PARSING_ERROR
           Sample.OUTPUT_MESSAGES_PARSING_ERROR
           Sample.OUTPUT_VALUE_PARSING_ERROR Sample.MODEL_NAME_PARSING_ERROR
           {| attributes := "{bad" |} (3, 5)
           (MkSyntaxError "Unexpected token") eq_refl).
Defined.

Lemma transform_merge_sample :
  parseError (Sample.safelyParseJSON
                (attributes (Sample.spanOf Sample.partialAttributes))) = None
  ∧ let instance :=
      Transformed.playgroundInstance
        (Sample.transformSpanAttributesToPlaygroundInstance
           (Sample.spanOf Sample.partialAttributes) (3, 5)).1 in
    let base := (Sample.createPlaygroundInstance (3, 5)).1 in
    PlaygroundInstance.model instance
      = ModelConfig.Make "bedrock-claude-v2" "ANTHROPIC"
    ∧ PlaygroundInstance.template instance
      = PlaygroundInstance.template base
    ∧ PlaygroundInstance.output instance = OutputString "done"
    ∧ PlaygroundInstance.rest instance = PlaygroundInstance.rest base.
Proof.
  split; [reflexivity|].
  exact (transform_merge Sample.generateMessageId
           Sample.createPlaygroundInstance Sample.safelyParseJSON
           Sample.chatMessageRoles Sample.ChatRoleMap
           Sample.DEFAULT_CHAT_ROLE Sample.modelProviderToModelPrefixMap
           Sample.DEFAULT_MODEL_PROVIDER Sample.SPAN_ATTRIBUTES_PARSING_ERROR
           Sample.INPUT_MESSAGES_PARSING_ERROR
           Sample.OUTPUT_MESSAGES_PARSING_ERROR
           Sample.OUTPUT_VALUE_PARSING_ERROR Sample.MODEL_NAME_PARSING_ERROR
           (Sample.spanOf Sample.partialAttributes) (3, 5) eq_refl).
Defined.

Lemma transform_parsingErrors_order_sample :
  parseError (Sample.safelyParseJSON
                (attributes (Sample.spanOf Sample.partialAttributes))) = None
  ∧ Transformed.parsingErrors
      (Sample.transformSpanAttributesToPlaygroundInstance
         (Sample.spanOf Sample.partialAttributes) (3, 5)).1
    = [Sample.INPUT_MESSAGES_PARSING_ERROR]
      ++ [Sample.OUTPUT_MESSAGES_PARSING_ERROR] ++ [].
Proof.
  split; [reflexivity|].
  exact (transform_parsingErrors_order Sample.generateMessageId
           Sample.createPlaygroundInstance Sample.safelyParseJSON
           Sample.chatMessageRoles Sample.ChatRoleMap
           Sample.DEFAULT_CHAT_ROLE Sample.modelProviderToModelPrefixMap
           Sample.DEFAULT_MODEL_PROVIDER Sample.SPAN_ATTRIBUTES_PARSING_ERROR
           Sample.INPUT_MESSAGES_PARSING_ERROR
           Sample.OUTPUT_MESSAGES_PARSING_ERROR
           Sample.OUTPUT_VALUE_PARSING_ERROR Sample.MODEL_NAME_PARSING_ERROR
           (Sample.spanOf Sample.partialAttributes) (3, 5) eq_refl).
Defined.

Lemma transform_empty_object_sample :
  Sample.safelyParseJSON (attributes (Sample.spanOf (JObject [])))
    = {| json := JObject []; parseError := None |}
  ∧ Sample.transformSpanAttributesToPlaygroundInstance
      (Sample.spanOf (JObject [])) (3, 5)
    = (Transformed.Make
         (PlaygroundInstance.Make
            (ModelConfig.Make "gpt-4o" "OPENAI")
            (ChatTemplate
               [ChatMessage.Make 5 "system" "You are a chatbot";
                ChatMessage.Make 6 "user" "{{question}}"])
            OutputUndefined 3)
         [Sample.INPUT_MESSAGES_PARSING_ERROR;
          Sample.OUTPUT_MESSAGES_PARSING_ERROR;
          Sample.OUTPUT_VALUE_PARSING_ERROR;
          Sample.MODEL_NAME_PARSING_ERROR],
       (4, 7)).
Proof.
  split; [reflexivity|].
  exact (transform_empty_object Sample.generateMessageId
           Sample.createPlaygroundInstance Sample.safelyParseJSON
           Sample.chatMessageRoles Sample.ChatRoleMap
           Sample.DEFAULT_CHAT_ROLE Sample.modelProviderToModelPrefixMap
           Sample.DEFAULT_MODEL_PROVIDER Sample.SPAN_ATTRIBUTES_PARSING_ERROR
           Sample.INPUT_MESSAGES_PARSING_ERROR
           Sample.OUTPUT_MESSAGES_PARSING_ERROR
           Sample.OUTPUT_VALUE_PARSING_ERROR Sample.MODEL_NAME_PARSING_ERROR
           (Sample.spanOf (JObject [])) (3, 5) eq_refl).
Defined.

(** The three shapes of the output extractor on the sample documents. *)
Example getOutputFromAttributes_shapes_sample :
  Sample.getOutputFromAttributes Sample.chatAttributes (1, 2)
    = (ExtractedOutput.Make
         (OutputMessages [ChatMessage.Make 2 "ai" "hello"]) [], (1, 3))
  ∧ Sample.getOutputFromAttributes Sample.partialAttributes (1, 2)
    = (ExtractedOutput.Make (OutputString "done")
         [Sample.OUTPUT_MESSAGES_PARSING_ERROR], (1, 2))
  ∧ Sample.getOutputFromAttributes (JObject []) (1, 2)
    = (ExtractedOutput.Make OutputUndefined
         [Sample.OUTPUT_MESSAGES_PARSING_ERROR;
          Sample.OUTPUT_VALUE_PARSING_ERROR], (1, 2)).
Proof. repeat split. Qed.

(** * Further properties *)

(** ** Role normalizer *)

Section RoleNormalizerFurther.

Variable chatMessageRoles : list string.
Variable ChatRoleMap : list (string * list string).
Variable DEFAULT_CHAT_ROLE : string.

Local Abbreviation getChatRole' :=
  (getChatRole chatMessageRoles ChatRoleMap DEFAULT_CHAT_ROLE).

(** With a well-typed configuration every result is a canonical role. *)
Lemma getChatRole_in_roles (role : string) :
  rolesWellTyped chatMessageRoles ChatRoleMap DEFAULT_CHAT_ROLE →
  getChatRole' role ∈ chatMessageRoles.
Proof.
  intros [Hdefault Hkeys]. unfold getChatRole.
  destruct (isChatMessageRole chatMessageRoles (JString role)) eqn:Hc.
  { by apply isChatMessageRole_string. }
  pose proof (getChatRole_entries_range DEFAULT_CHAT_ROLE ChatRoleMap role)
    as Hrange.
  apply elem_of_cons in Hrange as [->|Hrange]; [done|].
  apply list_elem_of_fmap in Hrange as (entry & -> & Hentry).
  by apply (proj1 (Forall_forall _ _) Hkeys).
Qed.

(** When the keys of the table and the default are canonical roles, the
    result of [getChatRole] is a canonical role, and normalizing a second
    time changes nothing. *)
Theorem getChatRole_idempotent (role : string) :
  rolesWellTyped chatMessageRoles ChatRoleMap DEFAULT_CHAT_ROLE →
  isChatMessageRole chatMessageRoles (JString (getChatRole' role)) = true
  ∧ getChatRole' (getChatRole' role) = getChatRole' role.
Proof.
  intros Htyped. pose proof (getChatRole_in_roles role Htyped) as Hin.
  apply isChatMessageRole_string in Hin. split; [done|].
  unfold getChatRole at 1. by rewrite Hin.
Qed.

(** A role that is not canonical is mapped to the key of the first entry,
    in the order of the table, whose accepted values hold it; entries
    further down are not consulted, whether they accept it or not. *)
Theorem getChatRole_first_accepting
    (before after : list (string * list string))
    (chatRole role : string) (acceptedValues : list string) :
  ChatRoleMap = before ++ (chatRole, acceptedValues) :: after →
  role ∉ chatMessageRoles →
  role ∈ acceptedValues →
  Forall (λ entry, role ∉ entry.2) before →
  getChatRole' role = chatRole.
Proof.
  intros -> Hnot Hin Hbefore. unfold getChatRole.
  destruct (isChatMessageRole chatMessageRoles (JString role)) eqn:Hc.
  { by apply isChatMessageRole_string in Hc. }
  by apply getChatRole_entries_first.
Qed.

End RoleNormalizerFurther.

Lemma getChatRole_idempotent_sample :
  rolesWellTyped Sample.chatMessageRoles Sample.ChatRoleMap
    Sample.DEFAULT_CHAT_ROLE
  ∧ isChatMessageRole Sample.chatMessageRoles
      (JString (Sample.getChatRole "assistant")) = true
  ∧ Sample.getChatRole (Sample.getChatRole "assistant")
    = Sample.getChatRole "assistant".
Proof.
  assert (rolesWellTyped Sample.chatMessageRoles Sample.ChatRoleMap
            Sample.DEFAULT_CHAT_ROLE) as Htyped.
  { split; [apply elem_of_by_evaluation; reflexivity|].
    repeat constructor; apply elem_of_by_evaluation; reflexivity. }
  split; [exact Htyped|].
  exact (getChatRole_idempotent Sample.chatMessageRoles Sample.ChatRoleMap
           Sample.DEFAULT_CHAT_ROLE "assistant" Htyped).
Defined.

Lemma getChatRole_first_accepting_sample :
  Sample.ChatRoleMap
    = [("user", ["user"; "human"])] ++ ("ai", ["assistant"; "bot"; "ai"])
        :: [("system", ["system"]); ("tool", ["tool"])]
  ∧ ("bot" ∉ Sample.chatMessageRoles)
  ∧ "bot" ∈ ["assistant"; "bot"; "ai"]
  ∧ Forall (λ entry, "bot" ∉ entry.2) [("user", ["user"; "human"])]
  ∧ Sample.getChatRole "bot" = "ai".
Proof.
  assert ("bot" ∉ Sample.chatMessageRoles) as Hnot.
  { apply not_elem_of_by_evaluation. reflexivity. }
  assert ("bot" ∈ ["assistant"; "bot"; "ai"]) as Hin.
  { apply elem_of_by_evaluation. reflexivity. }
  assert (Forall (λ entry : string * list string, "bot" ∉ entry.2)
            [("user", ["user"; "human"])]) as Hbefore.
  { repeat constructor. apply not_elem_of_by_evaluation. reflexivity. }
  split; [reflexivity|]. do 3 (split; [assumption|]).
  exact (getChatRole_first_accepting Sample.chatMessageRoles
           Sample.ChatRoleMap Sample.DEFAULT_CHAT_ROLE
           [("user", ["user"; "human"])]
           [("system", ["system"]); ("tool", ["tool"])]
           "ai" "bot" ["assistant"; "bot"; "ai"] eq_refl Hnot Hin Hbefore).
Defined.

(** ** Provider inferencer *)

Lemma includes_empty (s : string) : includes s "" = true.
Proof. by destruct s. Qed.

Lemma occursIn_empty_string (searchString : string) :
  occursIn searchString "" → searchString = "".
Proof.
  intros (before & after & Heq).
  destruct before; [|discriminate]. by destruct searchString.
Qed.

Section ProviderInferencerFurther.

Variable DEFAULT_MODEL_PROVIDER : string.

Local Abbreviation infer table :=
  (getModelProviderFromModelName table DEFAULT_MODEL_PROVIDER).

(** Whatever provider is returned is justified by the table: either it is
    the key of the first entry one of whose prefixes occurs in the model
    name, or no prefix of any entry occurs and it is the default.  A
    provider none of whose prefixes occurs is never returned for its own
    entry. *)
Theorem getModelProviderFromModelName_sound
    (modelProviderToModelPrefixMap : list (string * list string))
    (modelName : string) :
  (∃ before prefixes after prefix,
      modelProviderToModelPrefixMap
        = before ++ (infer modelProviderToModelPrefixMap modelName, prefixes)
                    :: after
      ∧ prefix ∈ prefixes
      ∧ occursIn prefix modelName
      ∧ Forall (noPrefixOccurs modelName) before)
  ∨ (infer modelProviderToModelPrefixMap modelName = DEFAULT_MODEL_PROVIDER
     ∧ Forall (noPrefixOccurs modelName) modelProviderToModelPrefixMap).
Proof.
  unfold getModelProviderFromModelName.
  induction modelProviderToModelPrefixMap as [|[q qs] entries IH]; simpl.
  - right. by split.
  - destruct (somePrefix qs modelName) eqn:Hq.
    + left. apply somePrefix_iff in Hq as (prefix & Hin & Hocc).
      by exists [], qs, entries, prefix.
    + assert (noPrefixOccurs modelName (q, qs)) as Hnone.
      { by apply noPrefixOccurs_by_evaluation. }
      destruct IH as [(before & prefixes & after & prefix & Heq & H1 & H2 & H3)
                     |[Heq Hall]].
      * left. exists ((q, qs) :: before), prefixes, after, prefix.
        split; [by rewrite Heq at 1|]. by repeat split; [..|constructor].
      * right. split; [done|by constructor].
Qed.

(** An entry none of whose prefixes occurs in the model name has no
    influence on the result; in particular a provider configured with an
    empty list of prefixes is passed over for every model name. *)
Theorem getModelProviderFromModelName_skips
    (before after : list (string * list string))
    (entry : string * list string) (modelName : string) :
  noPrefixOccurs modelName entry →
  infer (before ++ entry :: after) modelName
    = infer (before ++ after) modelName.
Proof.
  intros Hnone. unfold getModelProviderFromModelName.
  induction before as [|[q qs] before IH]; simpl.
  - destruct entry as [p prefixes]. by rewrite (somePrefix_false _ _ _ Hnone).
  - by rewrite IH.
Qed.

(** A provider configured with the empty string as a prefix matches every
    model name: the result is then the key of that entry or of an entry
    above it, never a provider further down and never, as a fall-back, the
    default. *)
Theorem getModelProviderFromModelName_empty_prefix
    (before after : list (string * list string))
    (provider : string) (prefixes : list string) (modelName : string) :
  "" ∈ prefixes →
  infer (before ++ (provider, prefixes) :: after) modelName
    ∈ before.*1 ++ [provider].
Proof.
  intros Hempty. unfold getModelProviderFromModelName.
  assert (somePrefix prefixes modelName = true) as Hsome.
  { apply somePrefix_iff. exists "". split; [done|].
    apply includes_iff, includes_empty. }
  induction before as [|[q qs] before IH]; simpl.
  - rewrite Hsome. apply list_elem_of_here.
  - destruct (somePrefix qs modelName).
    + apply list_elem_of_here.
    + by apply list_elem_of_further.
Qed.

(** For the empty model name only an empty prefix can match: when no
    provider is configured with the empty string, the result is the
    default provider. *)
Theorem getModelProviderFromModelName_empty_name
    (modelProviderToModelPrefixMap : list (string * list string)) :
  Forall (λ entry, "" ∉ entry.2) modelProviderToModelPrefixMap →
  infer modelProviderToModelPrefixMap "" = DEFAULT_MODEL_PROVIDER.
Proof.
  intros Hnone. apply getModelProvider_entries_none.
  eapply Forall_impl; [exact Hnone|]. intros entry Hentry prefix Hin Hocc.
  apply occursIn_empty_string in Hocc as ->. by apply Hentry.
Qed.

End ProviderInferencerFurther.

Lemma getModelProviderFromModelName_skips_sample :
  noPrefixOccurs "gpt-4o" ("AZURE_OPENAI", [])
  ∧ Sample.getModelProviderFromModelName "gpt-4o"
    = getModelProviderFromModelName
        ([] ++ [("ANTHROPIC", ["claude"]); ("OPENAI", ["gpt"; "o1"])])
        Sample.DEFAULT_MODEL_PROVIDER "gpt-4o".
Proof.
  assert (noPrefixOccurs "gpt-4o" ("AZURE_OPENAI", [])) as Hnone.
  { apply noPrefixOccurs_by_evaluation. reflexivity. }
  split; [exact Hnone|].
  exact (getModelProviderFromModelName_skips Sample.DEFAULT_MODEL_PROVIDER
           [] [("ANTHROPIC", ["claude"]); ("OPENAI", ["gpt"; "o1"])]
           ("AZURE_OPENAI", []) "gpt-4o" Hnone).
Defined.

Lemma getModelProviderFromModelName_empty_prefix_sample :
  "" ∈ ["llama"; ""]
  ∧ getModelProviderFromModelName
      ([("ANTHROPIC", ["claude"])] ++ ("LOCAL", ["llama"; ""])
         :: [("OPENAI", ["gpt"; "o1"])])
      "OPENAI" "gpt-4o"
    ∈ [("ANTHROPIC", ["claude"])].*1 ++ ["LOCAL"].
Proof.
  assert ("" ∈ ["llama"; ""]) as Hin.
  { apply elem_of_by_evaluation. reflexivity. }
  split; [exact Hin|].
  exact (getModelProviderFromModelName_empty_prefix "OPENAI"
           [("ANTHROPIC", ["claude"])] [("OPENAI", ["gpt"; "o1"])]
           "LOCAL" ["llama"; ""] "gpt-4o" Hin).
Defined.

Lemma getModelProviderFromModelName_empty_name_sample :
  Forall (λ entry, "" ∉ entry.2) Sample.modelProviderToModelPrefixMap
  ∧ Sample.getModelProviderFromModelName "" = Sample.DEFAULT_MODEL_PROVIDER.
Proof.
  assert (Forall (λ entry : string * list string, "" ∉ entry.2)
            Sample.modelProviderToModelPrefixMap) as Hnone.
  { repeat constructor; apply not_elem_of_by_evaluation; reflexivity. }
  split; [exact Hnone|].
  exact (getModelProviderFromModelName_empty_name
           Sample.DEFAULT_MODEL_PROVIDER
           Sample.modelProviderToModelPrefixMap Hnone).
Defined.

(** ** Attribute extractors *)

Section ExtractorFurther.

Context {Store MessageId : Type}.
Variable generateMessageId : State Store MessageId.
Variable chatMessageRoles : list string.
Variable ChatRoleMap : list (string * list string).
Variable DEFAULT_CHAT_ROLE : string.
Variable OUTPUT_MESSAGES_PARSING_ERROR : string.
Variable OUTPUT_VALUE_PARSING_ERROR : string.

Local Abbreviation getChatRole' :=
  (getChatRole chatMessageRoles ChatRoleMap DEFAULT_CHAT_ROLE).
Local Abbreviation process :=
  (processAttributeMessagesToChatMessage generateMessageId
     chatMessageRoles ChatRoleMap DEFAULT_CHAT_ROLE).
Local Abbreviation getOutputFromAttributes' :=
  (getOutputFromAttributes generateMessageId chatMessageRoles
     ChatRoleMap DEFAULT_CHAT_ROLE OUTPUT_MESSAGES_PARSING_ERROR
     OUTPUT_VALUE_PARSING_ERROR).

(** Drawing [n + m] identifiers is drawing [n], then [m] from the store
    that is left. *)
Lemma generated_add (n m : nat) (st : Store) :
  generated generateMessageId (n + m) st =
    let '(ids1, st1) := generated generateMessageId n st in
    let '(ids2, st2) := generated generateMessageId m st1 in
    (ids1 ++ ids2, st2).
Proof.
  revert st. induction n as [|n IH]; intros st; simpl.
  - by destruct (generated generateMessageId m st).
  - destruct (generateMessageId st) as [id st1]. rewrite IH.
    destruct (generated generateMessageId n st1) as [ids1 st2].
    by destruct (generated generateMessageId m st2).
Qed.

(** The messages built by [process] correspond to the entries one to one
    and in order, and their identifiers are the ones generated. *)
Lemma process_correspondence (messages : list MessageSchema.t) (st : Store) :
  Forall2
    (λ entry chat,
       ChatMessage.content chat
         = MessageSchema.content (MessageSchema.message entry)
       ∧ ChatMessage.role chat
         = getChatRole' (MessageSchema.role (MessageSchema.message entry)))
    messages (process messages st).1
  ∧ ChatMessage.id <$> (process messages st).1
    = (generated generateMessageId (length messages) st).1.
Proof.
  rewrite process_generated.
  pose proof (generated_length generateMessageId (length messages) st) as Hlen.
  destruct (generated generateMessageId (length messages) st) as [ids st'].
  simpl in *. clear st st'. revert ids Hlen.
  induction messages as [|m messages IH]; intros [|i ids] Hlen;
    simpl in *; try discriminate.
  - by split.
  - destruct (IH ids) as [IH1 IH2]; [by injection Hlen|].
    split; [by constructor|]. f_equal. apply IH2.
Qed.

Lemma process_app (messages1 messages2 : list MessageSchema.t) (st : Store) :
  process (messages1 ++ messages2) st =
    let '(chats1, st1) := process messages1 st in
    let '(chats2, st2) := process messages2 st1 in
    (chats1 ++ chats2, st2).
Proof.
  revert st. induction messages1 as [|m messages1 IH]; intros st.
  - rewrite process_nil. simpl. by destruct (process messages2 st).
  - rewrite <- app_comm_cons, !process_cons.
    destruct (generateMessageId st) as [id st1]. rewrite IH.
    destruct (process messages1 st1) as [chats1 st2].
    by destruct (process messages2 st2).
Qed.

(** Converting a concatenation of two message arrays gives the messages
    of the first array followed by those of the second, the second array
    being converted from the store the first conversion leaves.  There is
    one message per entry (content copied, role normalized), and the
    identifiers of the first part followed by those of the second are the
    results of one generator call per entry, in the order of the entries;
    the store left is the one after these calls. *)
Theorem processAttributeMessagesToChatMessage_app
    (messages1 messages2 : list MessageSchema.t) (st : Store) :
  let '(chats1, st1) := process messages1 st in
  let '(chats2, st2) := process messages2 st1 in
  process (messages1 ++ messages2) st = (chats1 ++ chats2, st2)
  ∧ length chats1 = length messages1
  ∧ length chats2 = length messages2
  ∧ Forall2
      (λ entry chat,
         ChatMessage.content chat
           = MessageSchema.content (MessageSchema.message entry)
         ∧ ChatMessage.role chat
           = getChatRole' (MessageSchema.role (MessageSchema.message entry)))
      (messages1 ++ messages2) (chats1 ++ chats2)
  ∧ (ChatMessage.id <$> chats1) ++ (ChatMessage.id <$> chats2)
    = (generated generateMessageId
         (length messages1 + length messages2) st).1
  ∧ st2 = (generated generateMessageId
             (length messages1 + length messages2) st).2.
Proof.
  pose proof (process_app messages1 messages2 st) as Happ.
  destruct (process_correspondence messages1 st) as [Hall1 Hids1].
  pose proof (process_generated generateMessageId chatMessageRoles
                ChatRoleMap DEFAULT_CHAT_ROLE messages1 st) as Hgen1.
  destruct (process messages1 st) as [chats1 st1]. simpl in *.
  destruct (process_correspondence messages2 st1) as [Hall2 Hids2].
  pose proof (process_generated generateMessageId chatMessageRoles
                ChatRoleMap DEFAULT_CHAT_ROLE messages2 st1) as Hgen2.
  destruct (process messages2 st1) as [chats2 st2]. simpl in *.
  split; [done|].
  split; [symmetry; by eapply Forall2_length|].
  split; [symmetry; by eapply Forall2_length|].
  split; [by apply Forall2_app|].
  rewrite generated_add, Hids1, Hids2.
  injection Hgen1 as _ ->. injection Hgen2 as _ ->.
  destruct (generated generateMessageId (length messages1) st) as [ids1 st1'].
  simpl. by destruct (generated generateMessageId (length messages2) st1').
Qed.

(** With a well-typed role configuration every message the conversion
    builds carries a canonical role, whatever role strings the span
    recorded. *)
Theorem processAttributeMessagesToChatMessage_roles_canonical
    (messages : list MessageSchema.t) (st : Store) :
  rolesWellTyped chatMessageRoles ChatRoleMap DEFAULT_CHAT_ROLE →
  Forall
    (λ chat, isChatMessageRole chatMessageRoles
               (JString (ChatMessage.role chat)) = true)
    (process messages st).1.
Proof.
  intros Htyped. destruct (process_correspondence messages st) as [Hall _].
  induction Hall as [|entry chat entries chats [_ Hrole] _ IH];
    constructor; [|done].
  rewrite Hrole. apply isChatMessageRole_string.
  by apply getChatRole_in_roles.
Qed.

(** When the [llm.output_messages] shape validates, the output is the
    list of chat messages built from its entries (one per entry, in order,
    content copied, role normalized, identifiers as generated), there is no
    error, and an [output.value] the attributes may also hold is not
    looked at. *)
Theorem getOutputFromAttributes_output_messages
    (parsedAttributes : JSON) (output_messages : list MessageSchema.t)
    (st : Store) :
  llmOutputMessageSchema parsedAttributes = Some output_messages →
  ∃ messages,
    getOutputFromAttributes' parsedAttributes st
      = (ExtractedOutput.Make (OutputMessages messages) [],
         (generated generateMessageId (length output_messages) st).2)
    ∧ Forall2
        (λ entry chat,
           ChatMessage.content chat
             = MessageSchema.content (MessageSchema.message entry)
           ∧ ChatMessage.role chat
             = getChatRole'
                 (MessageSchema.role (MessageSchema.message entry)))
        output_messages messages
    ∧ ChatMessage.id <$> messages
      = (generated generateMessageId (length output_messages) st).1.
Proof.
  intros Hvalid. unfold getOutputFromAttributes. rewrite Hvalid.
  unfold mbind, State_bind.
  destruct (process_correspondence output_messages st) as [Hall Hids].
  rewrite process_generated in *. simpl in *.
  eexists. split; [reflexivity|]. by split.
Qed.

End ExtractorFurther.

(** ** Model-config extractor *)

(** The model-config extractor returns either a configuration and no
    error, or no configuration and exactly [[MODEL_NAME_PARSING_ERROR]].
    A configuration carries the recorded [llm.model_name] as it is, and as
    provider the one inferred from that name: a key of the provider table
    or the default provider. *)
Theorem getModelConfigFromAttributes_shapes
    (modelProviderToModelPrefixMap : list (string * list string))
    (DEFAULT_MODEL_PROVIDER MODEL_NAME_PARSING_ERROR : string)
    (parsedAttributes : JSON) :
  let extracted :=
    getModelConfigFromAttributes modelProviderToModelPrefixMap
      DEFAULT_MODEL_PROVIDER MODEL_NAME_PARSING_ERROR parsedAttributes in
  match ExtractedModelConfig.modelConfig extracted with
  | Some config =>
      modelNameSchema parsedAttributes = Some (ModelConfig.modelName config)
      ∧ ModelConfig.provider config
        = getModelProviderFromModelName modelProviderToModelPrefixMap
            DEFAULT_MODEL_PROVIDER (ModelConfig.modelName config)
      ∧ ModelConfig.provider config
        ∈ DEFAULT_MODEL_PROVIDER :: modelProviderToModelPrefixMap.*1
      ∧ ExtractedModelConfig.parsingErrors extracted = []
  | None =>
      modelNameSchema parsedAttributes = None
      ∧ ExtractedModelConfig.parsingErrors extracted
        = [MODEL_NAME_PARSING_ERROR]
  end.
Proof.
  unfold getModelConfigFromAttributes.
  destruct (modelNameSchema parsedAttributes) as [model_name|]; simpl.
  - repeat split. apply getModelProvider_entries_range.
  - by split.
Qed.

(** ** Instance transformer *)

Lemma lacksLlmAndOutput_rejected (parsedAttributes : JSON) :
  lacksLlmAndOutput parsedAttributes →
  llmInputMessageSchema parsedAttributes = None
  ∧ llmOutputMessageSchema parsedAttributes = None
  ∧ outputSchema parsedAttributes = None
  ∧ modelNameSchema parsedAttributes = None.
Proof.
  unfold llmInputMessageSchema, llmOutputMessageSchema, outputSchema,
    modelNameSchema.
  destruct parsedAttributes as [| | | | |props]; try done.
  intros [Hllm Houtput]. simpl. by rewrite Hllm, Houtput.
Qed.

Section TransformerFurther.

Context {Store MessageId OtherTemplate Rest : Type}.
Variable generateMessageId : State Store MessageId.
Variable createPlaygroundInstance :
  State Store (PlaygroundInstance.t MessageId OtherTemplate Rest).
Variable safelyParseJSON : string → SafeParse.
Variable chatMessageRoles : list string.
Variable ChatRoleMap : list (string * list string).
Variable DEFAULT_CHAT_ROLE : string.
Variable modelProviderToModelPrefixMap : list (string * list string).
Variable DEFAULT_MODEL_PROVIDER : string.
Variable SPAN_ATTRIBUTES_PARSING_ERROR : string.
Variable INPUT_MESSAGES_PARSING_ERROR : string.
Variable OUTPUT_MESSAGES_PARSING_ERROR : string.
Variable OUTPUT_VALUE_PARSING_ERROR : string.
Variable MODEL_NAME_PARSING_ERROR : string.

Local Abbreviation getTemplateMessagesFromAttributes' :=
  (getTemplateMessagesFromAttributes generateMessageId chatMessageRoles
     ChatRoleMap DEFAULT_CHAT_ROLE INPUT_MESSAGES_PARSING_ERROR).
Local Abbreviation getOutputFromAttributes' :=
  (getOutputFromAttributes generateMessageId chatMessageRoles
     ChatRoleMap DEFAULT_CHAT_ROLE OUTPUT_MESSAGES_PARSING_ERROR
     OUTPUT_VALUE_PARSING_ERROR).
Local Abbreviation getModelConfigFromAttributes' :=
  (getModelConfigFromAttributes modelProviderToModelPrefixMap
     DEFAULT_MODEL_PROVIDER MODEL_NAME_PARSING_ERROR).
Local Abbreviation transform :=
  (transformSpanAttributesToPlaygroundInstance generateMessageId
     createPlaygroundInstance safelyParseJSON chatMessageRoles ChatRoleMap
     DEFAULT_CHAT_ROLE modelProviderToModelPrefixMap DEFAULT_MODEL_PROVIDER
     SPAN_ATTRIBUTES_PARSING_ERROR INPUT_MESSAGES_PARSING_ERROR
     OUTPUT_MESSAGES_PARSING_ERROR OUTPUT_VALUE_PARSING_ERROR
     MODEL_NAME_PARSING_ERROR).

(** What each extractor returns and the store it leaves, by the outcome
    of its schemas. *)
Lemma getTemplateMessagesFromAttributes_run (parsedAttributes : JSON)
    (st : Store) :
  getTemplateMessagesFromAttributes' parsedAttributes st =
    match llmInputMessageSchema parsedAttributes with
    | Some input_messages =>
        (TemplateMessages.Make []
           (Some (processAttributeMessagesToChatMessage generateMessageId
                    chatMessageRoles ChatRoleMap DEFAULT_CHAT_ROLE
                    input_messages st).1),
         (generated generateMessageId (length input_messages) st).2)
    | None => (TemplateMessages.Make [INPUT_MESSAGES_PARSING_ERROR] None, st)
    end.
Proof.
  unfold getTemplateMessagesFromAttributes.
  destruct (llmInputMessageSchema parsedAttributes) as [input|]; [|done].
  unfold mbind, State_bind. by rewrite process_generated.
Qed.

Lemma getOutputFromAttributes_run (parsedAttributes : JSON) (st : Store) :
  getOutputFromAttributes' parsedAttributes st =
    match llmOutputMessageSchema parsedAttributes with
    | Some output_messages =>
        (ExtractedOutput.Make
           (OutputMessages
              (processAttributeMessagesToChatMessage generateMessageId
                 chatMessageRoles ChatRoleMap DEFAULT_CHAT_ROLE
                 output_messages st).1) [],
         (generated generateMessageId (length output_messages) st).2)
    | None =>
        match outputSchema parsedAttributes with
        | Some value =>
            (ExtractedOutput.Make (OutputString value)
               [OUTPUT_MESSAGES_PARSING_ERROR], st)
        | None =>
            (ExtractedOutput.Make OutputUndefined
               [OUTPUT_MESSAGES_PARSING_ERROR; OUTPUT_VALUE_PARSING_ERROR],
             st)
        end
    end.
Proof.
  unfold getOutputFromAttributes.
  destruct (llmOutputMessageSchema parsedAttributes) as [output|].
  - unfold mbind, State_bind. by rewrite process_generated.
  - by destruct (outputSchema parsedAttributes).
Qed.

(** A span whose attributes parse to a value that is no object ([null], a
    number, a string, a boolean, an array), or to an object that has
    neither an [llm] nor an [output] property, is treated like the empty
    object: the four shape tags in order, the baseline instance with
    [output] undefined, no identifier drawn. *)
Theorem transform_lacking_attributes (span : PlaygroundSpan) (st : Store) :
  parseError (safelyParseJSON (attributes span)) = None →
  lacksLlmAndOutput (json (safelyParseJSON (attributes span))) →
  let '(basePlaygroundInstance, st0) := createPlaygroundInstance st in
  transform span st =
    (Transformed.Make
       (PlaygroundInstance.Make
          (PlaygroundInstance.model basePlaygroundInstance)
          (PlaygroundInstance.template basePlaygroundInstance)
          OutputUndefined
          (PlaygroundInstance.rest basePlaygroundInstance))
       [INPUT_MESSAGES_PARSING_ERROR; OUTPUT_MESSAGES_PARSING_ERROR;
        OUTPUT_VALUE_PARSING_ERROR; MODEL_NAME_PARSING_ERROR],
     st0).
Proof.
  intros Hparsed Hlacks. rewrite (transform_parsed _ _ _ _ _ _ _ _ _ _ _ _ _
                                    span st Hparsed). cbv zeta.
  destruct (lacksLlmAndOutput_rejected _ Hlacks) as (Hin & Hout & Hval & Hname).
  destruct (createPlaygroundInstance st) as [base st0].
  rewrite getTemplateMessagesFromAttributes_run, Hin.
  rewrite getOutputFromAttributes_run, Hout, Hval.
  unfold getModelConfigFromAttributes. by rewrite Hname.
Qed.

(** The transformer in full, by the outcome of the parser. *)
Lemma transform_run (span : PlaygroundSpan) (st : Store) :
  transform span st =
    let parsed := safelyParseJSON (attributes span) in
    let '(basePlaygroundInstance, st0) := createPlaygroundInstance st in
    match parseError parsed with
    | Some _ =>
        (Transformed.Make basePlaygroundInstance
           [SPAN_ATTRIBUTES_PARSING_ERROR], st0)
    | None =>
        let '(extractedMessages, st1) :=
          getTemplateMessagesFromAttributes' (json parsed) st0 in
        let '(extractedOutput, st2) :=
          getOutputFromAttributes' (json parsed) st1 in
        let extractedModel := getModelConfigFromAttributes' (json parsed) in
        (Transformed.Make
           (mergeInstance basePlaygroundInstance
              (TemplateMessages.messages extractedMessages)
              (ExtractedOutput.output extractedOutput)
              (ExtractedModelConfig.modelConfig extractedModel))
           (TemplateMessages.messageParsingErrors extractedMessages
            ++ ExtractedOutput.outputParsingErrors extractedOutput
            ++ ExtractedModelConfig.parsingErrors extractedModel),
         st2)
    end.
Proof.
  unfold transformSpanAttributesToPlaygroundInstance.
  unfold mbind at 1, State_bind. cbv zeta.
  destruct (createPlaygroundInstance st) as [base st0].
  destruct (parseError (safelyParseJSON (attributes span))); [done|].
  unfold mbind at 1, State_bind.
  destruct (getTemplateMessagesFromAttributes' _ st0) as [em st1].
  unfold mbind at 1, State_bind.
  by destruct (getOutputFromAttributes' _ st1) as [eo st2].
Qed.

(** The error list is empty exactly when everything was extracted: the
    attributes parsed, and the input-messages, output-messages and
    model-name shapes all validated.  In particular a span recording its
    output as [output.value] only always comes with an error tag. *)
Theorem transform_no_error_iff (span : PlaygroundSpan) (st : Store) :
  let parsed := safelyParseJSON (attributes span) in
  Transformed.parsingErrors (transform span st).1 = []
  ↔ parseError parsed = None
    ∧ is_Some (llmInputMessageSchema (json parsed))
    ∧ is_Some (llmOutputMessageSchema (json parsed))
    ∧ is_Some (modelNameSchema (json parsed)).
Proof.
  cbv zeta. rewrite transform_run. cbv zeta.
  destruct (createPlaygroundInstance st) as [base st0].
  destruct (parseError (safelyParseJSON (attributes span))) as [error|].
  { simpl. split; [done|]. by intros [? _]. }
  rewrite getTemplateMessagesFromAttributes_run.
  set (parsedAttributes := json (safelyParseJSON (attributes span))).
  destruct (llmInputMessageSchema parsedAttributes) as [input|];
    rewrite getOutputFromAttributes_run;
    destruct (llmOutputMessageSchema parsedAttributes) as [output|];
    try destruct (outputSchema parsedAttributes) as [value|];
    unfold getModelConfigFromAttributes;
    destruct (modelNameSchema parsedAttributes) as [model_name|]; simpl;
    (split; [try done|intros (_ & H1 & H2 & H3)]);
    try (by repeat split; eauto);
    try (by destruct H1); try (by destruct H2); by destruct H3.
Qed.

(** The transformer draws, after the baseline instance is built, one
    identifier per validated input message and then one per validated
    output message, and nothing else: the store it leaves is the store of
    the baseline constructor advanced by that many calls of the generator
    (by none when the attributes did not parse). *)
Theorem transform_store (span : PlaygroundSpan) (st : Store) :
  let parsed := safelyParseJSON (attributes span) in
  let st0 := (createPlaygroundInstance st).2 in
  (transform span st).2 =
    match parseError parsed with
    | Some _ => st0
    | None =>
        (generated generateMessageId
           (inputMessageCount (json parsed) + outputMessageCount (json parsed))
           st0).2
    end.
Proof.
  cbv zeta. rewrite transform_run. cbv zeta.
  destruct (createPlaygroundInstance st) as [base st0]. simpl.
  destruct (parseError (safelyParseJSON (attributes span))) as [error|];
    [done|].
  rewrite getTemplateMessagesFromAttributes_run.
  set (parsedAttributes := json (safelyParseJSON (attributes span))).
  rewrite generated_add. unfold inputMessageCount, outputMessageCount.
  destruct (llmInputMessageSchema parsedAttributes) as [input|];
    rewrite getOutputFromAttributes_run;
    destruct (llmOutputMessageSchema parsedAttributes) as [output|];
    try destruct (outputSchema parsedAttributes) as [value|]; simpl;
    try done;
    try (by destruct (generated generateMessageId (length output) st0));
    destruct (generated generateMessageId (length input) st0) as [ids1 st1];
    simpl; try done;
    by destruct (generated generateMessageId (length output) st1).
Qed.

(** When both message shapes validate, the template of the instance is a
    chat template with one message per input entry, the output is one
    message per output entry, and the identifiers of the template messages
    followed by those of the output messages are the identifiers the
    generator returned, in the order of the calls: input messages are
    numbered before output messages. *)
Theorem transform_messages_in_order
    (span : PlaygroundSpan) (st : Store)
    (input_messages output_messages : list MessageSchema.t) :
  let parsed := safelyParseJSON (attributes span) in
  let st0 := (createPlaygroundInstance st).2 in
  let instance := Transformed.playgroundInstance (transform span st).1 in
  parseError parsed = None →
  llmInputMessageSchema (json parsed) = Some input_messages →
  llmOutputMessageSchema (json parsed) = Some output_messages →
  ∃ messages output,
    PlaygroundInstance.template instance = ChatTemplate messages
    ∧ PlaygroundInstance.output instance = OutputMessages output
    ∧ length messages = length input_messages
    ∧ length output = length output_messages
    ∧ (ChatMessage.id <$> messages) ++ (ChatMessage.id <$> output)
      = (generated generateMessageId
           (length input_messages + length output_messages) st0).1.
Proof.
  cbv zeta. intros Hparsed Hinput Houtput. rewrite transform_run. cbv zeta.
  destruct (createPlaygroundInstance st) as [base st0]. rewrite Hparsed.
  rewrite getTemplateMessagesFromAttributes_run, Hinput.
  rewrite getOutputFromAttributes_run, Houtput. simpl.
  set (st1 := (generated generateMessageId (length input_messages) st0).2).
  destruct (process_correspondence generateMessageId chatMessageRoles
              ChatRoleMap DEFAULT_CHAT_ROLE input_messages st0)
    as [Hall1 Hids1].
  destruct (process_correspondence generateMessageId chatMessageRoles
              ChatRoleMap DEFAULT_CHAT_ROLE output_messages st1)
    as [Hall2 Hids2].
  eexists _, _. split; [reflexivity|]. split; [reflexivity|].
  split; [symmetry; by eapply Forall2_length|].
  split; [symmetry; by eapply Forall2_length|].
  rewrite Hids1, Hids2, generated_add. subst st1.
  destruct (generated generateMessageId (length input_messages) st0)
    as [ids1 st1]. simpl.
  by destruct (generated generateMessageId (length output_messages) st1).
Qed.

End TransformerFurther.

(** ** The sample configuration, continued *)

Lemma processAttributeMessagesToChatMessage_roles_canonical_sample :
  rolesWellTyped Sample.chatMessageRoles Sample.ChatRoleMap
    Sample.DEFAULT_CHAT_ROLE
  ∧ Forall
      (λ chat, isChatMessageRole Sample.chatMessageRoles
                 (JString (ChatMessage.role chat)) = true)
      (processAttributeMessagesToChatMessage Sample.generateMessageId
         Sample.chatMessageRoles Sample.ChatRoleMap Sample.DEFAULT_CHAT_ROLE
         [MessageSchema.Make (MessageSchema.Message "human" "hi");
          MessageSchema.Make (MessageSchema.Message "narrator" "later")]
         (0, 0)).1.
Proof.
  assert (rolesWellTyped Sample.chatMessageRoles Sample.ChatRoleMap
            Sample.DEFAULT_CHAT_ROLE) as Htyped.
  { split; [apply elem_of_by_evaluation; reflexivity|].
    repeat constructor; apply elem_of_by_evaluation; reflexivity. }
  split; [exact Htyped|].
  exact (processAttributeMessagesToChatMessage_roles_canonical
           Sample.generateMessageId Sample.chatMessageRoles
           Sample.ChatRoleMap Sample.DEFAULT_CHAT_ROLE
           [MessageSchema.Make (MessageSchema.Message "human" "hi");
            MessageSchema.Make (MessageSchema.Message "narrator" "later")]
           (0, 0) Htyped).
Defined.

Lemma getOutputFromAttributes_output_messages_sample :
  llmOutputMessageSchema Sample.chatAttributes
    = Some [MessageSchema.Make (MessageSchema.Message "assistant" "hello")]
  ∧ ∃ messages,
      Sample.getOutputFromAttributes Sample.chatAttributes (1, 2)
        = (ExtractedOutput.Make (OutputMessages messages) [], (1, 3))
      ∧ Forall2
          (λ entry chat,
             ChatMessage.content chat
               = MessageSchema.content (MessageSchema.message entry)
             ∧ ChatMessage.role chat
               = Sample.getChatRole
                   (MessageSchema.role (MessageSchema.message entry)))
          [MessageSchema.Make (MessageSchema.Message "assistant" "hello")]
          messages
      ∧ ChatMessage.id <$> messages = [2].
Proof.
  split; [reflexivity|].
  exact (getOutputFromAttributes_output_messages Sample.generateMessageId
           Sample.chatMessageRoles Sample.ChatRoleMap
           Sample.DEFAULT_CHAT_ROLE Sample.OUTPUT_MESSAGES_PARSING_ERROR
           Sample.OUTPUT_VALUE_PARSING_ERROR Sample.chatAttributes
           [MessageSchema.Make (MessageSchema.Message "assistant" "hello")]
           (1, 2) eq_refl).
Defined.

Lemma transform_lacking_attributes_sample :
  parseError (Sample.safelyParseJSON (attributes (Sample.spanOf JNull)))
    = None
  ∧ lacksLlmAndOutput
      (json (Sample.safelyParseJSON (attributes (Sample.spanOf JNull))))
  ∧ Sample.transformSpanAttributesToPlaygroundInstance
      (Sample.spanOf JNull) (3, 5)
    = (Transformed.Make
         (PlaygroundInstance.Make
            (ModelConfig.Make "gpt-4o" "OPENAI")
            (ChatTemplate
               [ChatMessage.Make 5 "system" "You are a chatbot";
                ChatMessage.Make 6 "user" "{{question}}"])
            OutputUndefined 3)
         [Sample.INPUT_MESSAGES_PARSING_ERROR;
          Sample.OUTPUT_MESSAGES_PARSING_ERROR;
          Sample.OUTPUT_VALUE_PARSING_ERROR;
          Sample.MODEL_NAME_PARSING_ERROR],
       (4, 7)).
Proof.
  split; [reflexivity|]. split; [exact I|].
  exact (transform_lacking_attributes Sample.generateMessageId
           Sample.createPlaygroundInstance Sample.safelyParseJSON
           Sample.chatMessageRoles Sample.ChatRoleMap
           Sample.DEFAULT_CHAT_ROLE Sample.modelProviderToModelPrefixMap
           Sample.DEFAULT_MODEL_PROVIDER Sample.SPAN_ATTRIBUTES_PARSING_ERROR
           Sample.INPUT_MESSAGES_PARSING_ERROR
           Sample.OUTPUT_MESSAGES_PARSING_ERROR
           Sample.OUTPUT_VALUE_PARSING_ERROR Sample.MODEL_NAME_PARSING_ERROR
           (Sample.spanOf JNull) (3, 5) eq_refl I).
Defined.

Lemma transform_messages_in_order_sample :
  parseError (Sample.safelyParseJSON
                (attributes (Sample.spanOf Sample.chatAttributes))) = None
  ∧ llmInputMessageSchema Sample.chatAttributes
    = Some [MessageSchema.Make (MessageSchema.Message "human" "hi")]
  ∧ llmOutputMessageSchema Sample.chatAttributes
    = Some [MessageSchema.Make (MessageSchema.Message "assistant" "hello")]
  ∧ ∃ messages output,
      PlaygroundInstance.template
        (Transformed.playgroundInstance
           (Sample.transformSpanAttributesToPlaygroundInstance
              (Sample.spanOf Sample.chatAttributes) (3, 5)).1)
        = ChatTemplate messages
      ∧ PlaygroundInstance.output
          (Transformed.playgroundInstance
             (Sample.transformSpanAttributesToPlaygroundInstance
                (Sample.spanOf Sample.chatAttributes) (3, 5)).1)
        = OutputMessages output
      ∧ length messages = 1
      ∧ length output = 1
      ∧ (ChatMessage.id <$> messages) ++ (ChatMessage.id <$> output)
        = [7; 8].
Proof.
  split; [reflexivity|]. split; [reflexivity|]. split; [reflexivity|].
  exact (transform_messages_in_order Sample.generateMessageId
           Sample.createPlaygroundInstance Sample.safelyParseJSON
           Sample.chatMessageRoles Sample.ChatRoleMap
           Sample.DEFAULT_CHAT_ROLE Sample.modelProviderToModelPrefixMap
           Sample.DEFAULT_MODEL_PROVIDER Sample.SPAN_ATTRIBUTES_PARSING_ERROR
           Sample.INPUT_MESSAGES_PARSING_ERROR
           Sample.OUTPUT_MESSAGES_PARSING_ERROR
           Sample.OUTPUT_VALUE_PARSING_ERROR Sample.MODEL_NAME_PARSING_ERROR
           (Sample.spanOf Sample.chatAttributes) (3, 5)
           [MessageSchema.Make (MessageSchema.Message "human" "hi")]
           [MessageSchema.Make (MessageSchema.Message "assistant" "hello")]
           eq_refl eq_refl eq_refl).
Defined.

(** A span that records its output as [output.value] only: the output is
    extracted and the error list is not empty. *)
Example transform_output_value_sample :
  Sample.transformSpanAttributesToPlaygroundInstance
    (Sample.spanOf Sample.outputValueAttributes) (3, 5)
  = (Transformed.Make
       (PlaygroundInstance.Make
          (ModelConfig.Make "gpt-4o" "OPENAI")
          (ChatTemplate
             [ChatMessage.Make 5 "system" "You are a chatbot";
              ChatMessage.Make 6 "user" "{{question}}"])
          (OutputString "42") 3)
       [Sample.INPUT_MESSAGES_PARSING_ERROR;
        Sample.OUTPUT_MESSAGES_PARSING_ERROR;
        Sample.MODEL_NAME_PARSING_ERROR],
     (4, 7)).
Proof. reflexivity. Qed.
